(** * AIReports: the report wizard of Bhujal.io

    A shallow embedding of [src/pages/AIReports.tsx]: the React component
    [AIReports], its five state hooks, its event handlers and its
    rendering selection, followed by the properties of the wizard.

    JavaScript values are modelled as the runtime has them, not as the
    TypeScript annotations promise them: [handleOptionSelect] writes
    under a computed key, so the [formData] object is a finite map from
    property names to values, and a field can hold a value of another
    type than the [FormData] interface declares. *)

From Stdlib Require Import ZArith NArith QArith String Ascii List.
From stdpp Require Import gmap list.

Local Open Scope Z_scope.

(** ** JavaScript strings

    A JavaScript string is a sequence of UTF-16 code units. *)

Abbreviation jsstring := (list N).

(** String literals of the source; all of them are ASCII. *)
Definition lit (s : string) : jsstring :=
  map N_of_ascii (list_ascii_of_string s).

Module JS.

(** ECMAScript WhiteSpace and LineTerminator code points, the characters
    [String.prototype.trim] strips. All lie in the basic plane, so each
    is one code unit. *)
Definition whiteSpace : list N :=
  [ 0x0009; 0x000A; 0x000B; 0x000C; 0x000D; 0x0020; 0x00A0; 0x1680;
    0x2000; 0x2001; 0x2002; 0x2003; 0x2004; 0x2005; 0x2006; 0x2007;
    0x2008; 0x2009; 0x200A; 0x2028; 0x2029; 0x202F; 0x205F; 0x3000;
    0xFEFF ]%N.

Definition isWhiteSpace (c : N) : bool := bool_decide (c ∈ whiteSpace).

Fixpoint trimStart (s : jsstring) : jsstring :=
  match s with
  | c :: s' => if isWhiteSpace c then trimStart s' else s
  | [] => []
  end.

Definition trimEnd (s : jsstring) : jsstring := rev (trimStart (rev s)).

(** [s.trim()] *)
Definition trim (s : jsstring) : jsstring := trimEnd (trimStart s).

(** Truthiness of a string: only the empty string is falsy. *)
Definition truthy (s : jsstring) : bool :=
  match s with [] => false | _ :: _ => true end.

Fixpoint startsWith (s search : jsstring) : bool :=
  match search, s with
  | [], _ => true
  | _ :: _, [] => false
  | c :: search', d :: s' => bool_decide (c = d) && startsWith s' search'
  end.

(** [s.includes(search)] on a string receiver: substring search. *)
Fixpoint stringIncludes (s search : jsstring) : bool :=
  startsWith s search
  || match s with
     | [] => false
     | _ :: s' => stringIncludes s' search
     end.

Definition isLeadSurrogate (c : N) : bool :=
  ((0xD800 <=? c) && (c <=? 0xDBFF))%N.
Definition isTrailSurrogate (c : N) : bool :=
  ((0xDC00 <=? c) && (c <=? 0xDFFF))%N.

(** The string iterator, which [[...s]] runs on a string [s]: one
    element per code point, a surrogate pair staying together. *)
Fixpoint stringIterator (s : jsstring) : list jsstring :=
  match s with
  | [] => []
  | c :: s' =>
      match s' with
      | d :: s'' =>
          if isLeadSurrogate c && isTrailSurrogate d
          then [c; d] :: stringIterator s''
          else [c] :: stringIterator s'
      | [] => [[c]]
      end
  end.

(** [a || b] on strings where [a] may be [undefined]. *)
Definition orElse (a : option jsstring) (b : jsstring) : jsstring :=
  match a with
  | Some x => if truthy x then x else b
  | None => b
  end.

End JS.

(** ** Values and completions *)

(** The values a field of [formData] holds at run time: a string, or an
    array of strings. *)
Inductive JSValue :=
| VStr (s : jsstring)
| VArr (a : list jsstring).

#[global] Instance JSValue_eq_dec : EqDecision JSValue.
Proof. solve_decision. Defined.

(** [formData]: a JavaScript object, property name to value. A missing
    key reads as [undefined]. *)
Abbreviation FormData := (gmap (list N) JSValue).

Inductive Exception := TypeError.

(** The outcome of evaluating code that may throw. *)
Inductive Completion (A : Type) :=
| Normal (a : A)
| Throw (e : Exception).
Arguments Normal {A} a.
Arguments Throw {A} e.

#[global] Instance Completion_bind : MBind Completion :=
  fun A B (f : A -> Completion B) (c : Completion A) =>
    match c with
    | Normal a => f a
    | Throw e => Throw e
    end.

(** ** Static catalogs (lines 9-54) *)

Record Question := {
  id : jsstring;
  text : jsstring;
  options : list jsstring
}.

Definition questions : list Question := [
  {| id := lit "reportType";
     text := lit "What type of report do you need?";
     options := [
       lit "Groundwater Level Analysis";
       lit "Water Quality Assessment";
       lit "Aquifer Characterization";
       lit "Sustainability Analysis" ] |};
  {| id := lit "period";
     text := lit "Select the time period for analysis";
     options := [
       lit "Last 6 months";
       lit "Last 1 year";
       lit "Last 5 years";
       lit "Last 10 years" ] |}
].

Definition parameters : list jsstring := [
  lit "pH Level";
  lit "Total Dissolved Solids (TDS)";
  lit "Chloride Content";
  lit "Fluoride Level";
  lit "Nitrate Concentration";
  lit "Groundwater Level";
  lit "Recharge Rate";
  lit "Extraction Rate"
].

(** The initial [formData] of line 61. *)
Definition initialFormData : FormData :=
  <[lit "reportType" := VStr []]>
  (<[lit "location" := VStr []]>
  (<[lit "period" := VStr []]>
  (<[lit "parameters" := VArr []]> ∅))).

(** A value thrown by a collaborator: an [Error] instance with its
    [message], which may be the empty string, or any other value, with
    its [message] property when it has one. *)
Inductive Thrown :=
| ThrownError (message : jsstring)
| ThrownOther (message : option jsstring).

(** A settled promise. *)
Inductive Settled (A : Type) :=
| Fulfilled (a : A)
| Rejected (reason : Thrown).
Arguments Fulfilled {A} a.
Arguments Rejected {A} reason.

(** [import.meta.env] *)
Record Env := { VITE_PERPLEXITY_API_KEY : option jsstring }.

(** ** The component *)

Section AIReports.

(** [ProcessedReport] is a type of the services module
    [../services/reports]; the component only stores a report and hands
    it back, so the type is a parameter. It is an object type: a
    [ProcessedReport] value is always truthy. *)
Context {ProcessedReport : Type}.

(** The five [useState] hooks of lines 57-66. [currentStep] is a
    JavaScript number that only ever takes part in [prev - 1] and
    [prev + 1] from 0, exact on integers. *)
Record State := {
  currentStep : Z;
  isGenerating : bool;
  error : option jsstring;
  reportData : option ProcessedReport;
  formData : FormData
}.

Definition initialState : State := {|
  currentStep := 0;
  isGenerating := false;
  error := None;
  reportData := None;
  formData := initialFormData
|}.

(** The state setters. [setCurrentStep] and [setFormData] are only used
    with an updater function in the source. *)
Definition setCurrentStep (f : Z -> Z) (s : State) : State :=
  {| currentStep := f (currentStep s); isGenerating := isGenerating s;
     error := error s; reportData := reportData s; formData := formData s |}.

Definition setIsGenerating (b : bool) (s : State) : State :=
  {| currentStep := currentStep s; isGenerating := b;
     error := error s; reportData := reportData s; formData := formData s |}.

Definition setError (e : option jsstring) (s : State) : State :=
  {| currentStep := currentStep s; isGenerating := isGenerating s;
     error := e; reportData := reportData s; formData := formData s |}.

Definition setReportData (r : option ProcessedReport) (s : State) : State :=
  {| currentStep := currentStep s; isGenerating := isGenerating s;
     error := error s; reportData := r; formData := formData s |}.

Definition withFormData (fd : FormData) (s : State) : State :=
  {| currentStep := currentStep s; isGenerating := isGenerating s;
     error := error s; reportData := reportData s; formData := fd |}.

(** React queues an updater and calls it when it renders the component
    next. An updater that throws therefore throws out of the render: no
    next state is committed, none of the updates queued with it takes
    effect, and the component, which has no error boundary of its own,
    is taken off the screen. [Throw] stands for that outcome. *)
Definition setFormData (f : FormData -> Completion FormData) (s : State)
  : Completion State :=
  fd ← f (formData s);
  Normal (withFormData fd s).

(** *** Field handlers (lines 68-92) *)

Definition handleOptionSelect (questionId value : jsstring) (s : State)
  : Completion State :=
  s1 ← setFormData (fun prev => Normal (<[questionId := VStr value]> prev)) s;
  Normal (setError None s1).

Definition handleLocationChange (value : jsstring) (s : State)
  : Completion State :=
  s1 ← setFormData (fun prev => Normal (<[lit "location" := VStr value]> prev)) s;
  Normal (setError None s1).

(** The new value of [parameters] in [handleParameterToggle]. On an
    array, [includes] is membership and [filter] exists. On a string,
    [includes] is substring search, [filter] is [undefined] (calling it
    is a TypeError) and the spread runs the string iterator. On
    [undefined], reading [includes] is a TypeError. *)
Definition toggledParameters (parameter : jsstring) (prevParameters : option JSValue)
  : Completion (list jsstring) :=
  match prevParameters with
  | Some (VArr a) =>
      Normal (if decide (parameter ∈ a)
              then filter (fun p => p ≠ parameter) a
              else a ++ [parameter])
  | Some (VStr str) =>
      if JS.stringIncludes str parameter
      then Throw TypeError
      else Normal (JS.stringIterator str ++ [parameter])
  | None => Throw TypeError
  end.

Definition handleParameterToggle (parameter : jsstring) (s : State)
  : Completion State :=
  s1 ← setFormData (fun prev =>
          a ← toggledParameters parameter (prev !! lit "parameters");
          Normal (<[lit "parameters" := VArr a]> prev)) s;
  Normal (setError None s1).

(** *** Collaborators *)

(** The instance [ReportGenerator.getInstance()] returns, as an oracle
    for how each of its calls settles; a call that throws before it
    returns a promise counts as rejected, which is what [await] inside
    [try] makes of it. *)
Record ReportGenerator := {
  generateReport : FormData -> jsstring -> Settled ProcessedReport;
  downloadReportAsPDF : ProcessedReport -> Settled unit
}.

Inductive ServiceCall :=
| CallGenerateReport (fd : FormData) (apiKey : jsstring)
| CallDownloadReportAsPDF (report : ProcessedReport).

(** An [async] handler up to its [await]: it has finished, it has thrown,
    or it is suspended on a call with [pending] the state it committed
    before suspending and [k] what it does to the state, whatever that
    is by then, once the call has settled. *)
Inductive Async :=
| Done (s : State)
| Raise (e : Exception)
| AwaitGenerateReport (pending : State) (fd : FormData) (apiKey : jsstring)
    (k : Settled ProcessedReport -> State -> State)
| AwaitDownloadReportAsPDF (pending : State) (report : ProcessedReport)
    (k : Settled unit -> State -> State).

(** *** Generate and download (lines 94-124) *)

Definition handleGenerateReport (env : Env) (s : State) : Async :=
  match formData s !! lit "location" with
  | Some (VStr location) =>
      if negb (JS.truthy (JS.trim location))
      then Done (setError (Some (lit "Please enter a location")) s)
      else
        AwaitGenerateReport
          (setError None (setIsGenerating true s))
          (formData s)
          (JS.orElse (VITE_PERPLEXITY_API_KEY env) [])
          (fun settled st =>
             setIsGenerating false
               match settled with
               | Fulfilled report => setReportData (Some report) st
               | Rejected (ThrownError message) => setError (Some message) st
               | Rejected (ThrownOther _) =>
                   setError (Some (lit "Failed to generate report")) st
               end)
  | Some (VArr _) | None => Raise TypeError
  end.

Definition handleDownloadPDF (s : State) : Async :=
  match reportData s with
  | Some report =>
      AwaitDownloadReportAsPDF s report
        (fun settled st =>
           match settled with
           | Fulfilled _ => st
           | Rejected _ => setError (Some (lit "Failed to download PDF")) st
           end)
  | None => Done s
  end.

(** Running a handler to its end against the collaborators, nothing else
    happening in between: the final state and the calls made. *)
Definition run (svc : ReportGenerator) (a : Async)
  : Completion State * list ServiceCall :=
  match a with
  | Done s => (Normal s, [])
  | Raise e => (Throw e, [])
  | AwaitGenerateReport pending fd apiKey k =>
      (Normal (k (generateReport svc fd apiKey) pending),
       [CallGenerateReport fd apiKey])
  | AwaitDownloadReportAsPDF pending report k =>
      (Normal (k (downloadReportAsPDF svc report) pending),
       [CallDownloadReportAsPDF report])
  end.

(** *** Rendering selection (lines 126-167) *)

Inductive View :=
| ReportVisualization (report : ProcessedReport)
| LocationAndParameters (location selectedParameters : option JSValue)
| ReportQuestion (question : Question) (selectedValue : option JSValue).

(** [questions[i]] for a number [i]: [undefined] out of range. *)
Definition questionAt (i : Z) : option Question :=
  if 0 <=? i then questions !! Z.to_nat i else None.

Definition renderCurrentStep (s : State) : Completion View :=
  match reportData s with
  | Some report => Normal (ReportVisualization report)
  | None =>
      if currentStep s =? Z.of_nat (length questions)
      then Normal (LocationAndParameters (formData s !! lit "location")
                                         (formData s !! lit "parameters"))
      else
        match questionAt (currentStep s) with
        | Some question =>
            Normal (ReportQuestion question (formData s !! id question))
        | None => Throw TypeError
        end
  end.

(** *** Navigation buttons (lines 201-236) *)

(** A button: a disabled button does not run its handler. *)
Record Button := {
  onClick : State -> State;
  disabled : bool
}.

Definition click (b : Button) (s : State) : State :=
  if disabled b then s else onClick b s.

(** The navigation bar is rendered only while there is no report. *)
Definition previousButton (s : State) : option Button :=
  match reportData s with
  | Some _ => None
  | None =>
      Some {| onClick := setCurrentStep (fun prev => prev - 1);
              disabled := currentStep s =? 0 |}
  end.

(** Truthiness of [formData[key]]: [undefined] and the empty string are
    falsy, an array is truthy. *)
Definition fieldTruthy (v : option JSValue) : bool :=
  match v with
  | Some (VStr str) => JS.truthy str
  | Some (VArr _) => true
  | None => false
  end.

Definition nextButton (s : State) : Completion (option Button) :=
  match reportData s with
  | Some _ => Normal None
  | None =>
      if currentStep s <? Z.of_nat (length questions)
      then
        match questionAt (currentStep s) with
        | Some question =>
            Normal (Some {| onClick := setCurrentStep (fun prev => prev + 1);
                            disabled := negb (fieldTruthy (formData s !! id question)) |})
        | None => Throw TypeError
        end
      else Normal None
  end.

(** What a click on Previous or Next does to the state: nothing when the
    button is not there. *)
Definition clickPrevious (s : State) : State :=
  match previousButton s with
  | Some b => click b s
  | None => s
  end.

(** The Generate button's [disabled] attribute (line 223); [||] stops at
    the first truthy operand, [length] of a string is its number of code
    units. *)
Definition generateDisabled (s : State) : Completion bool :=
  if isGenerating s then Normal true
  else
    empty ← match formData s !! lit "parameters" with
            | Some (VArr a) => Normal (bool_decide (length a = 0%nat))
            | Some (VStr str) => Normal (bool_decide (length str = 0%nat))
            | None => Throw TypeError
            end;
    if (empty : bool) then Normal true
    else
      match formData s !! lit "location" with
      | Some (VStr location) => Normal (negb (JS.truthy (JS.trim location)))
      | Some (VArr _) | None => Throw TypeError
      end.

Definition clickNext (s : State) : Completion State :=
  b ← nextButton s;
  Normal match b with
         | Some b => click b s
         | None => s
         end.

(** *** Sequences of calls *)

(** The synchronous operations: [Previous] and [Next] are the two
    [onClick] updaters themselves, without the buttons' gating. *)
Inductive Op :=
| SelectOption (questionId value : jsstring)
| ToggleParameter (name : jsstring)
| Previous
| Next.

Definition perform (o : Op) (s : State) : Completion State :=
  match o with
  | SelectOption questionId value => handleOptionSelect questionId value s
  | ToggleParameter name => handleParameterToggle name s
  | Previous => Normal (setCurrentStep (fun prev => prev - 1) s)
  | Next => Normal (setCurrentStep (fun prev => prev + 1) s)
  end.

Fixpoint performAll (ops : list Op) (s : State) : Completion State :=
  match ops with
  | [] => Normal s
  | o :: ops' => s1 ← perform o s; performAll ops' s1
  end.

(** [SelectOption] with a key other than [parameters]. *)
Definition keepsParameters (o : Op) : Prop :=
  match o with
  | SelectOption questionId _ => questionId ≠ lit "parameters"
  | _ => True
  end.

(** *** States the component reaches

    The handlers as the rendered controls invoke them: the option
    handler with the identifier of one of [questions] (line 164), the
    others with any string. Which controls are on screen and enabled is
    left out, so the relation covers every state the screen allows and
    more. An [async] handler commits its [pending] state when it
    suspends, and its continuation applies to whatever the state is
    when the call settles. *)
Inductive reachable (env : Env) : State -> Prop :=
| reach_initial : reachable env initialState
| reach_option s question value s' :
    reachable env s -> question ∈ questions ->
    handleOptionSelect (id question) value s = Normal s' ->
    reachable env s'
| reach_location s value s' :
    reachable env s -> handleLocationChange value s = Normal s' ->
    reachable env s'
| reach_toggle s parameter s' :
    reachable env s -> handleParameterToggle parameter s = Normal s' ->
    reachable env s'
| reach_previous s :
    reachable env s -> reachable env (setCurrentStep (fun prev => prev - 1) s)
| reach_next s :
    reachable env s -> reachable env (setCurrentStep (fun prev => prev + 1) s)
| reach_generate_done s s' :
    reachable env s -> handleGenerateReport env s = Done s' ->
    reachable env s'
| reach_generate_pending s pending fd apiKey k :
    reachable env s ->
    handleGenerateReport env s = AwaitGenerateReport pending fd apiKey k ->
    reachable env pending
| reach_generate_settled s0 pending fd apiKey k settled s :
    reachable env s0 ->
    handleGenerateReport env s0 = AwaitGenerateReport pending fd apiKey k ->
    reachable env s ->
    reachable env (k settled s)
| reach_download_settled s0 pending report k settled s :
    reachable env s0 ->
    handleDownloadPDF s0 = AwaitDownloadReportAsPDF pending report k ->
    reachable env s ->
    reachable env (k settled s).

(** [formData.parameters] is an array. *)
Definition parametersList (s : State) : option (list jsstring) :=
  match formData s !! lit "parameters" with
  | Some (VArr a) => Some a
  | _ => None
  end.

(** An [async] handler that never writes [formData]: [fd] is the form it
    started from. *)
Definition keepsFormData (fd : FormData) (a : Async) : Prop :=
  match a with
  | Done s' => formData s' = fd
  | Raise _ => True
  | AwaitGenerateReport pending _ _ k =>
      formData pending = fd
      /\ forall settled st, formData (k settled st) = formData st
  | AwaitDownloadReportAsPDF pending _ k =>
      formData pending = fd
      /\ forall settled st, formData (k settled st) = formData st
  end.

(** *** The whole screen (lines 169-240) *)

(** The width of the progress bar in percent,
    [((currentStep + 1) / (questions.length + 2)) * 100]. The divisor is
    4: the quotient and the product are exact in floating point for
    every step the wizard takes, so the rational says what the number
    is. *)
Definition progressWidth (step : Z) : Q :=
  (inject_Z (step + 1) / inject_Z (Z.of_nat (length questions) + 2)) * 100.

(** [{error && ...}]: the banner is rendered for a truthy [error], so
    neither for [null] nor for the empty string. *)
Definition errorBanner (s : State) : option jsstring :=
  match error s with
  | Some message => if JS.truthy message then Some message else None
  | None => None
  end.

(** The control at the right of the navigation bar. *)
Inductive Forward :=
| ForwardNext (b : Button)
| ForwardGenerate (generateIsDisabled : bool).

Record Screen := {
  banner : option jsstring;
  progress : option Q;
  body : View;
  navigation : option (Button * Forward)
}.

(** What the component renders in a state; a throw anywhere in the
    render is a throw of the render. *)
Definition AIReports (s : State) : Completion Screen :=
  view ← renderCurrentStep s;
  nav ← match previousButton s with
        | None => Normal None
        | Some previous =>
            next ← nextButton s;
            match next with
            | Some b => Normal (Some (previous, ForwardNext b))
            | None =>
                d ← generateDisabled s;
                Normal (Some (previous, ForwardGenerate d))
            end
        end;
  Normal {| banner := errorBanner s;
            progress := match reportData s with
                        | None => Some (progressWidth (currentStep s))
                        | Some _ => None
                        end;
            body := view;
            navigation := nav |}.

(** *** A session: the component and its requests in flight *)

Record Session := {
  state : State;
  (** calls of [generateReport] not settled yet, each with what the
      handler does once it has *)
  generating : list (FormData * jsstring * (Settled ProcessedReport -> State -> State));
  (** calls of [downloadReportAsPDF] not settled yet *)
  downloading : list (ProcessedReport * (Settled unit -> State -> State));
  (** every call made so far, the latest last *)
  calls : list ServiceCall
}.

Definition initialSession : Session :=
  {| state := initialState; generating := []; downloading := []; calls := [] |}.

Definition withState (s : State) (σ : Session) : Session :=
  {| state := s; generating := generating σ;
     downloading := downloading σ; calls := calls σ |}.

(** An [async] handler has been called: its synchronous part is
    committed, and a call it awaits is in flight. A handler that throws
    rejects its own promise, which nobody reads. *)
Definition start (a : Async) (σ : Session) : Session :=
  match a with
  | Done s' => withState s' σ
  | Raise _ => σ
  | AwaitGenerateReport pending fd apiKey k =>
      {| state := pending;
         generating := generating σ ++ [(fd, apiKey, k)];
         downloading := downloading σ;
         calls := calls σ ++ [CallGenerateReport fd apiKey] |}
  | AwaitDownloadReportAsPDF pending report k =>
      {| state := pending;
         generating := generating σ;
         downloading := downloading σ ++ [(report, k)];
         calls := calls σ ++ [CallDownloadReportAsPDF report] |}
  end.

(** What happens to a session: the user acts on a control, or a call in
    flight settles. The child components call back with a string of
    their choosing. *)
Inductive Event :=
| SelectAnswer (value : jsstring)
| ChangeLocation (value : jsstring)
| ToggleCheckbox (parameter : jsstring)
| ClickPrevious
| ClickNext
| ClickGenerate
| ClickDownload
| GenerateSettles (n : nat) (settled : Settled ProcessedReport)
| DownloadSettles (n : nat) (settled : Settled unit).

(** One event. A control reacts when it is on the screen and enabled;
    an event on a control that is not has no effect. The [n]-th call in
    flight settles when there is one. *)
Definition dispatch (env : Env) (ev : Event) (σ : Session) : Completion Session :=
  screen ← AIReports (state σ);
  match ev with
  | SelectAnswer value =>
      match body screen with
      | ReportQuestion question _ =>
          s' ← handleOptionSelect (id question) value (state σ);
          Normal (withState s' σ)
      | _ => Normal σ
      end
  | ChangeLocation value =>
      match body screen with
      | LocationAndParameters _ _ =>
          s' ← handleLocationChange value (state σ);
          Normal (withState s' σ)
      | _ => Normal σ
      end
  | ToggleCheckbox parameter =>
      match body screen with
      | LocationAndParameters _ _ =>
          s' ← handleParameterToggle parameter (state σ);
          Normal (withState s' σ)
      | _ => Normal σ
      end
  | ClickPrevious =>
      match navigation screen with
      | Some (previous, _) => Normal (withState (click previous (state σ)) σ)
      | None => Normal σ
      end
  | ClickNext =>
      match navigation screen with
      | Some (_, ForwardNext b) => Normal (withState (click b (state σ)) σ)
      | _ => Normal σ
      end
  | ClickGenerate =>
      match navigation screen with
      | Some (_, ForwardGenerate false) =>
          Normal (start (handleGenerateReport env (state σ)) σ)
      | _ => Normal σ
      end
  | ClickDownload =>
      match body screen with
      | ReportVisualization _ => Normal (start (handleDownloadPDF (state σ)) σ)
      | _ => Normal σ
      end
  | GenerateSettles n settled =>
      match generating σ !! n with
      | Some (_, _, k) =>
          Normal {| state := k settled (state σ);
                    generating := delete n (generating σ);
                    downloading := downloading σ;
                    calls := calls σ |}
      | None => Normal σ
      end
  | DownloadSettles n settled =>
      match downloading σ !! n with
      | Some (_, k) =>
          Normal {| state := k settled (state σ);
                    generating := generating σ;
                    downloading := delete n (downloading σ);
                    calls := calls σ |}
      | None => Normal σ
      end
  end.

Fixpoint dispatchAll (env : Env) (events : list Event) (σ : Session)
  : Completion Session :=
  match events with
  | [] => Normal σ
  | ev :: events' => σ1 ← dispatch env ev σ; dispatchAll env events' σ1
  end.

(** What the handlers do once their call has settled (lines 107-112 and
    120-122). *)
Definition onGenerateSettled (settled : Settled ProcessedReport) (st : State) : State :=
  setIsGenerating false
    match settled with
    | Fulfilled report => setReportData (Some report) st
    | Rejected (ThrownError message) => setError (Some message) st
    | Rejected (ThrownOther _) =>
        setError (Some (lit "Failed to generate report")) st
    end.

Definition onDownloadSettled (settled : Settled unit) (st : State) : State :=
  match settled with
  | Fulfilled _ => st
  | Rejected _ => setError (Some (lit "Failed to download PDF")) st
  end.

(** *** Conditions on a session *)

(** A string field of the form. *)
Definition stringField (key : jsstring) (fd : FormData) : option jsstring :=
  match fd !! key with
  | Some (VStr str) => Some str
  | _ => None
  end.

(** The form is what the [FormData] interface declares, its parameters
    pairwise distinct. *)
Definition formTyped (fd : FormData) : Prop :=
  is_Some (stringField (lit "reportType") fd)
  /\ is_Some (stringField (lit "location") fd)
  /\ is_Some (stringField (lit "period") fd)
  /\ exists a, fd !! lit "parameters" = Some (VArr a) /\ NoDup a.

(** The question stored under [key] has a non-empty answer. *)
Definition answered (key : jsstring) (fd : FormData) : Prop :=
  exists value, stringField key fd = Some value /\ value ≠ [].

(** The step is one of the three screens, and every question before it
    is answered. *)
Definition stepsAnswered (s : State) : Prop :=
  0 <= currentStep s <= 2
  /\ (1 <= currentStep s -> answered (lit "reportType") (formData s))
  /\ (2 <= currentStep s -> answered (lit "period") (formData s)).

(** A form complete enough to ask for a report. *)
Definition readyForm (fd : FormData) : Prop :=
  answered (lit "reportType") fd
  /\ answered (lit "period") fd
  /\ (exists location,
        stringField (lit "location") fd = Some location /\ JS.trim location ≠ [])
  /\ exists a, fd !! lit "parameters" = Some (VArr a) /\ a ≠ [] /\ NoDup a.

(** At most one [generateReport] call is in flight, [isGenerating] says
    whether one is, and there is no report yet while one is; a download
    in flight is of the report on screen. *)
Definition flightsTracked (σ : Session) : Prop :=
  Forall (fun g => g.2 = onGenerateSettled) (generating σ)
  /\ (if isGenerating (state σ)
      then length (generating σ) = 1%nat /\ reportData (state σ) = None
      else generating σ = [])
  /\ Forall (fun d => d.2 = onDownloadSettled
                      /\ reportData (state σ) = Some d.1) (downloading σ).

(** Every report was asked for with a ready form and the configured
    key; every download was of the report on screen. *)
Definition callOK (env : Env) (s : State) (c : ServiceCall) : Prop :=
  match c with
  | CallGenerateReport fd apiKey =>
      readyForm fd /\ apiKey = JS.orElse (VITE_PERPLEXITY_API_KEY env) []
  | CallDownloadReportAsPDF report => reportData s = Some report
  end.

(** No error while a report is being generated, and none but the
    download failure beside a report. *)
Definition errorsTracked (s : State) : Prop :=
  (isGenerating s = true -> error s = None)
  /\ (is_Some (reportData s) ->
      error s = None \/ error s = Some (lit "Failed to download PDF")).

Definition sessionOK (env : Env) (σ : Session) : Prop :=
  formTyped (formData (state σ))
  /\ stepsAnswered (state σ)
  /\ flightsTracked σ
  /\ Forall (callOK env (state σ)) (calls σ).

End AIReports.

(** ** Sample data

    Concrete collaborators and states for the scenarios; a report is a
    line of text here. *)

Definition sampleEnv : Env :=
  {| VITE_PERPLEXITY_API_KEY := Some (lit "pplx-0000") |}.

(** A Report Service that resolves, and a renderer that works. *)
Definition resolving : @ReportGenerator string :=
  {| generateReport := fun _ _ => Fulfilled "Groundwater report"%string;
     downloadReportAsPDF := fun _ => Fulfilled tt |}.

(** A Report Service that rejects with an [Error], and a renderer that
    throws. *)
Definition rejecting : @ReportGenerator string :=
  {| generateReport := fun _ _ => Rejected (ThrownError (lit "rate limited"));
     downloadReportAsPDF := fun _ => Rejected (ThrownError (lit "canvas is empty")) |}.

(** The form on the details screen, both questions answered. *)
Definition detailsForm (location : jsstring) (selected : JSValue) : FormData :=
  <[lit "reportType" := VStr (lit "Water Quality Assessment")]>
  (<[lit "location" := VStr location]>
  (<[lit "period" := VStr (lit "Last 1 year")]>
  (<[lit "parameters" := selected]> ∅))).

Definition detailsState (location : jsstring) (selected : JSValue) : @State string :=
  {| currentStep := 2; isGenerating := false; error := None;
     reportData := None; formData := detailsForm location selected |}.

(** A request is in flight and the location has been emptied since. *)
Definition inFlightBlank : @State string :=
  {| currentStep := 2; isGenerating := true; error := None;
     reportData := None;
     formData := detailsForm [] (VArr [lit "pH Level"]) |}.

(** The result screen. *)
Definition resultState : @State string :=
  {| currentStep := 2; isGenerating := false; error := None;
     reportData := Some "Groundwater report"%string;
     formData := detailsForm (lit "Jaipur")
                   (VArr [lit "pH Level"; lit "Fluoride Level"]) |}.

(** The result screen after a failed download. *)
Definition resultStateWithError : @State string :=
  {| currentStep := 2; isGenerating := false;
     error := Some (lit "Failed to download PDF");
     reportData := Some "Groundwater report"%string;
     formData := detailsForm (lit "Jaipur")
                   (VArr [lit "pH Level"; lit "Fluoride Level"]) |}.

(** [formData.parameters] overwritten by a string, and an error shown. *)
Definition stringParametersWithError : @State string :=
  {| currentStep := 0; isGenerating := false;
     error := Some (lit "Please enter a location");
     reportData := None;
     formData := <[lit "parameters" := VStr (lit "pH Level")]> initialFormData |}.

(** A Report Service that rejects with an [Error] without a message. *)
Definition rejectingSilently : @ReportGenerator string :=
  {| generateReport := fun _ _ => Rejected (ThrownError []);
     downloadReportAsPDF := fun _ => Fulfilled tt |}.

(** A Report Service that rejects with a plain object
    [{ message: 'rate limited' }], no [Error] instance. *)
Definition rejectingWithObject : @ReportGenerator string :=
  {| generateReport := fun _ _ => Rejected (ThrownOther (Some (lit "rate limited")));
     downloadReportAsPDF := fun _ => Fulfilled tt |}.

(** A user fills the wizard in, asks for the report, and gets it. *)
Definition eventsToDetails : list (@Event string) :=
  [ SelectAnswer (lit "Water Quality Assessment"); ClickNext;
    SelectAnswer (lit "Last 1 year"); ClickNext;
    ChangeLocation (lit "Jaipur"); ToggleCheckbox (lit "pH Level") ].

Definition eventsInFlight : list (@Event string) :=
  eventsToDetails ++ [ClickGenerate].

Definition eventsToResult : list (@Event string) :=
  eventsInFlight ++ [GenerateSettles 0 (Fulfilled "Groundwater report"%string)].

(** ** Properties *)

Section Properties.

Context {ProcessedReport : Type}.
Implicit Types (s st pending : @State ProcessedReport).
Implicit Types (svc : @ReportGenerator ProcessedReport).
Implicit Types (report : ProcessedReport).


(** *** Strings and keys *)

Lemma truthy_false (str : jsstring) : JS.truthy str = false <-> str = [].
Proof. destruct str; simpl; split; congruence. Qed.

Lemma truthy_true (str : jsstring) : JS.truthy str = true <-> str ≠ [].
Proof. destruct str; simpl; split; congruence. Qed.

Lemma location_ne_parameters : lit "location" ≠ lit "parameters".
Proof. intros H. vm_compute in H. discriminate H. Qed.

(** *** Generating a report *)

(** What [handleGenerateReport] does on a blank location: it finishes at
    once, with the error set and nothing else written. *)
Lemma handleGenerateReport_blank env s location :
  formData s !! lit "location" = Some (VStr location) ->
  JS.trim location = [] ->
  handleGenerateReport env s
  = Done (setError (Some (lit "Please enter a location")) s).
Proof.
  intros Hloc Hblank. unfold handleGenerateReport.
  rewrite Hloc, Hblank. reflexivity.
Qed.

(** What it does otherwise: it suspends on one call of [generateReport],
    having raised [isGenerating] and cleared [error]. *)
Lemma handleGenerateReport_suspends env s location :
  formData s !! lit "location" = Some (VStr location) ->
  JS.trim location ≠ [] ->
  exists k,
    handleGenerateReport env s
    = AwaitGenerateReport (setError None (setIsGenerating true s)) (formData s)
        (JS.orElse (VITE_PERPLEXITY_API_KEY env) []) k
    /\ (forall report st,
          k (Fulfilled report) st
          = setIsGenerating false (setReportData (Some report) st))
    /\ (forall message st,
          k (Rejected (ThrownError message)) st
          = setIsGenerating false (setError (Some message) st))
    /\ (forall other st,
          k (Rejected (ThrownOther other)) st
          = setIsGenerating false
              (setError (Some (lit "Failed to generate report")) st)).
Proof.
  intros Hloc Hnonblank. unfold handleGenerateReport. rewrite Hloc.
  apply truthy_true in Hnonblank. rewrite Hnonblank. simpl.
  eexists. split; [reflexivity|]. repeat split.
Qed.

(** C1, as amended. For every state in which [formData.location] is a
    string that is empty after trimming, whatever [formData.parameters]
    holds, [handleGenerateReport] performs no Report Service call and
    sets [error] to exactly 'Please enter a location'; it writes nothing
    else, so [isGenerating] keeps the value it had: false afterward when
    no request was in flight. *)
Theorem generate_blank_location svc env s location :
  formData s !! lit "location" = Some (VStr location) ->
  JS.trim location = [] ->
  exists s',
    run svc (handleGenerateReport env s) = (Normal s', [])
    /\ error s' = Some (lit "Please enter a location")
    /\ isGenerating s' = isGenerating s
    /\ (isGenerating s = false -> isGenerating s' = false)
    /\ reportData s' = reportData s
    /\ currentStep s' = currentStep s
    /\ formData s' = formData s.
Proof.
  intros Hloc Hblank.
  rewrite (handleGenerateReport_blank env s location Hloc Hblank).
  exists (setError (Some (lit "Please enter a location")) s).
  simpl. repeat split. intros Hidle. exact Hidle.
Qed.

(** C2. For every state with a non-blank location, when
    [handleGenerateReport] runs and the Report Service call resolves
    with [report], then afterward [reportData] is [report],
    [isGenerating] is false and [error] is unset; exactly one call was
    made, with the form as it stood and the configured key. *)
Theorem generate_success svc env s location report :
  formData s !! lit "location" = Some (VStr location) ->
  JS.trim location ≠ [] ->
  generateReport svc (formData s) (JS.orElse (VITE_PERPLEXITY_API_KEY env) [])
  = Fulfilled report ->
  exists s',
    run svc (handleGenerateReport env s)
    = (Normal s',
       [CallGenerateReport (formData s) (JS.orElse (VITE_PERPLEXITY_API_KEY env) [])])
    /\ reportData s' = Some report
    /\ isGenerating s' = false
    /\ error s' = None
    /\ currentStep s' = currentStep s
    /\ formData s' = formData s.
Proof.
  intros Hloc Hnonblank Hresolved.
  destruct (handleGenerateReport_suspends env s location Hloc Hnonblank)
    as (k & Hrun & Hok & _).
  rewrite Hrun. unfold run. rewrite Hresolved, Hok.
  eexists. split; [reflexivity|]. simpl. repeat split.
Qed.

(** C3, as amended. For every state with a non-blank location, when
    [handleGenerateReport] runs and the Report Service call fails, then
    afterward [error] is the failure's [message] when the failure is an
    [Error] instance, also when that message is the empty string, and
    'Failed to generate report' for any other thrown value, also for
    one that has a [message]; [reportData] is what it was, so it remains
    unset; and [isGenerating] is false. *)
Theorem generate_failure svc env s location reason :
  formData s !! lit "location" = Some (VStr location) ->
  JS.trim location ≠ [] ->
  generateReport svc (formData s) (JS.orElse (VITE_PERPLEXITY_API_KEY env) [])
  = Rejected reason ->
  exists s',
    run svc (handleGenerateReport env s)
    = (Normal s',
       [CallGenerateReport (formData s) (JS.orElse (VITE_PERPLEXITY_API_KEY env) [])])
    /\ error s' = Some match reason with
                        | ThrownError message => message
                        | ThrownOther _ => lit "Failed to generate report"
                        end
    /\ reportData s' = reportData s
    /\ (reportData s = None -> reportData s' = None)
    /\ isGenerating s' = false
    /\ currentStep s' = currentStep s
    /\ formData s' = formData s.
Proof.
  intros Hloc Hnonblank Hrejected.
  destruct (handleGenerateReport_suspends env s location Hloc Hnonblank)
    as (k & Hrun & _ & Herror & Hother).
  rewrite Hrun. unfold run. rewrite Hrejected.
  destruct reason as [message|other].
  - rewrite Herror. eexists. split; [reflexivity|]. simpl. repeat split.
    intros Hunset. exact Hunset.
  - rewrite Hother. eexists. split; [reflexivity|]. simpl. repeat split.
    intros Hunset. exact Hunset.
Qed.

(** C8. For every state in which [reportData] is set, when
    [handleDownloadPDF] runs and the Report Renderer fails, whatever the
    failure, then afterward [error] is 'Failed to download PDF' and
    [reportData] and [currentStep] are unchanged, as is everything else. *)
Theorem download_failure svc s report reason :
  reportData s = Some report ->
  downloadReportAsPDF svc report = Rejected reason ->
  exists s',
    run svc (handleDownloadPDF s) = (Normal s', [CallDownloadReportAsPDF report])
    /\ error s' = Some (lit "Failed to download PDF")
    /\ reportData s' = reportData s
    /\ currentStep s' = currentStep s
    /\ isGenerating s' = isGenerating s
    /\ formData s' = formData s.
Proof.
  intros Hset Hrejected. unfold handleDownloadPDF. rewrite Hset.
  unfold run. rewrite Hrejected.
  eexists. split; [reflexivity|]. simpl. rewrite Hset. repeat split.
Qed.

(** *** Editing the form *)

Lemma handleOptionSelect_eq questionId value s :
  handleOptionSelect questionId value s
  = Normal (setError None (withFormData (<[questionId := VStr value]> (formData s)) s)).
Proof. reflexivity. Qed.

Lemma handleLocationChange_eq value s :
  handleLocationChange value s
  = Normal (setError None (withFormData (<[lit "location" := VStr value]> (formData s)) s)).
Proof. reflexivity. Qed.

(** [handleParameterToggle] completes exactly when the new value of
    [parameters] can be computed, and then stores it. *)
Lemma handleParameterToggle_eq parameter s :
  handleParameterToggle parameter s
  = match toggledParameters parameter (formData s !! lit "parameters") with
    | Normal a =>
        Normal (setError None
                  (withFormData (<[lit "parameters" := VArr a]> (formData s)) s))
    | Throw e => Throw e
    end.
Proof.
  unfold handleParameterToggle, setFormData.
  destruct (toggledParameters parameter (formData s !! lit "parameters"));
    reflexivity.
Qed.

Lemma parametersList_Some s a :
  parametersList s = Some a <-> formData s !! lit "parameters" = Some (VArr a).
Proof.
  unfold parametersList.
  destruct (formData s !! lit "parameters") as [[str|a']|]; split; congruence.
Qed.

(** On an array the toggle always completes. *)
Lemma handleParameterToggle_list parameter s a :
  parametersList s = Some a ->
  handleParameterToggle parameter s
  = Normal (setError None
              (withFormData
                 (<[lit "parameters" :=
                      VArr (if decide (parameter ∈ a)
                            then filter (fun p => p ≠ parameter) a
                            else a ++ [parameter])]> (formData s)) s)).
Proof.
  intros Ha. apply parametersList_Some in Ha.
  rewrite handleParameterToggle_eq, Ha. reflexivity.
Qed.

Lemma parametersList_withFormData fd s a :
  parametersList (setError None (withFormData (<[lit "parameters" := VArr a]> fd) s))
  = Some a.
Proof. unfold parametersList. simpl. rewrite lookup_insert_eq. reflexivity. Qed.

(** C10. For every string [questionId], one of the declared question
    identifiers or not, and every string [value],
    [handleOptionSelect questionId value] stores the string [value] in
    [formData] under the key [questionId], creating the field or
    overwriting it, and leaves the other fields alone; with 'location'
    it overwrites the location, and with 'parameters' it replaces the
    parameters list by the string. *)
Theorem select_option_writes_any_key questionId value s :
  exists s',
    handleOptionSelect questionId value s = Normal s'
    /\ formData s' = <[questionId := VStr value]> (formData s)
    /\ formData s' !! questionId = Some (VStr value)
    /\ (forall key, key ≠ questionId -> formData s' !! key = formData s !! key)
    /\ (questionId = lit "location" ->
        formData s' !! lit "location" = Some (VStr value))
    /\ (questionId = lit "parameters" ->
        formData s' !! lit "parameters" = Some (VStr value)
        /\ parametersList s' = None).
Proof.
  rewrite handleOptionSelect_eq. eexists. split; [reflexivity|]. simpl.
  split; [reflexivity|].
  split; [apply lookup_insert_eq|].
  split; [intros key Hkey; apply lookup_insert_ne; congruence|].
  split.
  - intros ->. apply lookup_insert_eq.
  - intros ->. unfold parametersList. simpl.
    rewrite lookup_insert_eq. split; reflexivity.
Qed.

(** C5, as amended. For every state, with [error] set or not, and for
    every argument, [handleOptionSelect] and [handleLocationChange]
    complete and leave [error] unset, and so does
    [handleParameterToggle] whenever [formData.parameters] is a list;
    in any state, a toggle that completes leaves [error] unset. *)
Theorem edits_clear_error s :
  (forall questionId value, exists s',
      handleOptionSelect questionId value s = Normal s' /\ error s' = None)
  /\ (forall value, exists s',
      handleLocationChange value s = Normal s' /\ error s' = None)
  /\ (forall parameter a, parametersList s = Some a ->
      exists s', handleParameterToggle parameter s = Normal s' /\ error s' = None)
  /\ (forall parameter s',
      handleParameterToggle parameter s = Normal s' -> error s' = None).
Proof.
  split; [|split; [|split]].
  - intros questionId value. rewrite handleOptionSelect_eq.
    eexists. split; reflexivity.
  - intros value. rewrite handleLocationChange_eq.
    eexists. split; reflexivity.
  - intros parameter a Ha.
    rewrite (handleParameterToggle_list parameter s a Ha).
    eexists. split; reflexivity.
  - intros parameter s'. rewrite handleParameterToggle_eq.
    destruct (toggledParameters parameter (formData s !! lit "parameters"));
      intros Hdone; [|discriminate Hdone].
    injection Hdone as <-. reflexivity.
Qed.

(** *** Toggling a parameter *)

(** The list operation of [handleParameterToggle]. *)
Lemma filter_absent (parameter : jsstring) (a : list jsstring) :
  parameter ∉ a -> filter (fun p => p ≠ parameter) a = a.
Proof.
  induction a as [|p a IH]; intros Habsent; [reflexivity|].
  apply not_elem_of_cons in Habsent as [Hne Habsent].
  rewrite filter_cons_True by congruence. rewrite IH by exact Habsent.
  reflexivity.
Qed.

Lemma filter_removes (parameter : jsstring) (a : list jsstring) :
  parameter ∉ filter (fun p => p ≠ parameter) a.
Proof. rewrite list_elem_of_filter. intros [Hne _]. apply Hne. reflexivity. Qed.

Lemma toggle_keeps_NoDup (parameter : jsstring) (a : list jsstring) :
  NoDup a ->
  NoDup (if decide (parameter ∈ a)
         then filter (fun p => p ≠ parameter) a
         else a ++ [parameter]).
Proof.
  intros Hnodup. destruct (decide (parameter ∈ a)) as [Hin|Hout].
  - apply NoDup_filter. exact Hnodup.
  - apply NoDup_app. split; [exact Hnodup|]. split; [|apply NoDup_singleton].
    intros p Hp Hp'. apply list_elem_of_singleton in Hp'. subst p.
    exact (Hout Hp).
Qed.

(** C6, as amended. For every parameter name and every state whose
    [formData.parameters] is a list, toggling the name twice in
    succession completes and gives a list with the same members as the
    original one: the original list itself when the name was absent,
    and the original list with the name moved to the end (every
    occurrence removed, one appended) when it was present, a permutation
    of the original when that had no duplicates. The other fields of
    [formData] are as before. *)
Theorem toggle_twice parameter s a :
  parametersList s = Some a ->
  exists s1 s2 a2,
    handleParameterToggle parameter s = Normal s1
    /\ handleParameterToggle parameter s1 = Normal s2
    /\ parametersList s2 = Some a2
    /\ (forall p, p ∈ a2 <-> p ∈ a)
    /\ (parameter ∉ a -> a2 = a)
    /\ (parameter ∈ a -> a2 = filter (fun p => p ≠ parameter) a ++ [parameter])
    /\ (NoDup a -> a2 ≡ₚ a)
    /\ (forall key, key ≠ lit "parameters" ->
        formData s2 !! key = formData s !! key).
Proof.
  intros Ha.
  rewrite (handleParameterToggle_list parameter s a Ha).
  eexists. eexists.
  set (a1 := if decide (parameter ∈ a)
             then filter (fun p => p ≠ parameter) a else a ++ [parameter]).
  erewrite (handleParameterToggle_list parameter _ a1)
    by apply parametersList_withFormData.
  eexists. split; [reflexivity|]. split; [reflexivity|].
  split; [apply parametersList_withFormData|].
  assert (Hfrom_absent : parameter ∉ a ->
            (if decide (parameter ∈ a1)
             then filter (fun p => p ≠ parameter) a1 else a1 ++ [parameter]) = a).
  { intros Hout. subst a1.
    destruct (decide (parameter ∈ a)) as [Hin|_]; [contradiction|].
    rewrite decide_True by (apply elem_of_app; right; apply list_elem_of_singleton; reflexivity).
    rewrite filter_app, filter_absent by exact Hout.
    rewrite filter_cons_False by (intros Hne; apply Hne; reflexivity).
    rewrite filter_nil. apply app_nil_r. }
  assert (Hfrom_present : parameter ∈ a ->
            (if decide (parameter ∈ a1)
             then filter (fun p => p ≠ parameter) a1 else a1 ++ [parameter])
            = filter (fun p => p ≠ parameter) a ++ [parameter]).
  { intros Hin. subst a1.
    destruct (decide (parameter ∈ a)) as [_|Hout]; [|contradiction].
    rewrite decide_False by apply filter_removes. reflexivity. }
  assert (Hmembers : forall p,
            p ∈ (if decide (parameter ∈ a1)
                 then filter (fun p => p ≠ parameter) a1 else a1 ++ [parameter])
            <-> p ∈ a).
  { intros p. destruct (decide (parameter ∈ a)) as [Hin|Hout].
    - rewrite (Hfrom_present Hin), elem_of_app, list_elem_of_filter,
        list_elem_of_singleton.
      split.
      + intros [[_ Hp]| ->]; [exact Hp|exact Hin].
      + intros Hp. destruct (decide (p = parameter)) as [->|Hne];
          [right; reflexivity|left; split; [exact Hne|exact Hp]].
    - rewrite (Hfrom_absent Hout). reflexivity. }
  split; [exact Hmembers|]. split; [exact Hfrom_absent|].
  split; [exact Hfrom_present|]. split.
  - intros Hnodup. apply NoDup_Permutation; [|exact Hnodup|exact Hmembers].
    apply toggle_keeps_NoDup. subst a1. apply toggle_keeps_NoDup. exact Hnodup.
  - intros key Hkey. simpl.
    rewrite !lookup_insert_ne by congruence. reflexivity.
Qed.

(** *** Navigation *)

(** C7. For every state with [currentStep] equal to 0, the Previous
    action is a no-op: where the button is rendered it is disabled, a
    click on it runs no handler, and the state, [currentStep] included,
    is what it was. *)
Theorem previous_at_first_step s :
  currentStep s = 0 ->
  clickPrevious s = s
  /\ currentStep (clickPrevious s) = 0
  /\ (forall b, previousButton s = Some b -> disabled b = true).
Proof.
  intros Hfirst. unfold clickPrevious, previousButton.
  destruct (reportData s) as [report|].
  - split; [reflexivity|]. split; [exact Hfirst|]. intros b Hb. discriminate Hb.
  - unfold click. simpl. rewrite Hfirst. simpl.
    split; [reflexivity|]. split; [exact Hfirst|].
    intros b Hb. injection Hb as <-. reflexivity.
Qed.

(** The guard is the button's [disabled] attribute alone: the updater it
    would run subtracts one whatever the step is. *)
Remark previous_updater_unguarded s :
  currentStep (setCurrentStep (fun prev => prev - 1) s) = currentStep s - 1.
Proof. reflexivity. Qed.

(** *** The result view *)

Lemma renderCurrentStep_report s report :
  reportData s = Some report ->
  renderCurrentStep s = Normal (ReportVisualization report).
Proof. intros Hset. unfold renderCurrentStep. rewrite Hset. reflexivity. Qed.

(** None of the synchronous operations writes [reportData]. *)
Lemma perform_reportData o s s' :
  perform o s = Normal s' -> reportData s' = reportData s.
Proof.
  destruct o as [questionId value|name| |]; simpl.
  - rewrite handleOptionSelect_eq. intros H. injection H as <-. reflexivity.
  - rewrite handleParameterToggle_eq.
    destruct (toggledParameters name (formData s !! lit "parameters"));
      intros H; [|discriminate H].
    injection H as <-. reflexivity.
  - intros H. injection H as <-. reflexivity.
  - intros H. injection H as <-. reflexivity.
Qed.

Lemma performAll_reportData ops : forall s s',
  performAll ops s = Normal s' -> reportData s' = reportData s.
Proof.
  induction ops as [|o ops IH]; intros s s'; simpl.
  - intros H. injection H as <-. reflexivity.
  - destruct (perform o s) as [s1|e] eqn:Hstep; simpl; [|discriminate].
    intros Hrest. rewrite (IH s1 s' Hrest).
    exact (perform_reportData o s s1 Hstep).
Qed.

(** On a state whose [parameters] is a list, an operation that does not
    overwrite that key completes and leaves a list there. *)
Lemma perform_completes o s a :
  parametersList s = Some a -> keepsParameters o ->
  exists s' a', perform o s = Normal s' /\ parametersList s' = Some a'.
Proof.
  intros Ha Hkeeps. destruct o as [questionId value|name| |]; simpl in *.
  - rewrite handleOptionSelect_eq. eexists. exists a. split; [reflexivity|].
    unfold parametersList in *. simpl.
    rewrite lookup_insert_ne by exact Hkeeps. exact Ha.
  - rewrite (handleParameterToggle_list name s a Ha).
    eexists. eexists. split; [reflexivity|].
    apply parametersList_withFormData.
  - eexists. exists a. split; [reflexivity|]. exact Ha.
  - eexists. exists a. split; [reflexivity|]. exact Ha.
Qed.

Lemma performAll_completes ops : forall s a,
  parametersList s = Some a -> Forall keepsParameters ops ->
  exists s', performAll ops s = Normal s'.
Proof.
  induction ops as [|o ops IH]; intros s a Ha Hops; simpl.
  - exists s. reflexivity.
  - apply Forall_cons in Hops as [Ho Hops].
    destruct (perform_completes o s a Ha Ho) as (s1 & a1 & Hstep & Ha1).
    rewrite Hstep. simpl. exact (IH s1 a1 Ha1 Hops).
Qed.

(** C4, as amended. For every state in which [reportData] is set, the
    rendering selection yields the result view; no sequence of
    [handleOptionSelect], [handleParameterToggle] and step changes that
    runs to its end changes [reportData] or the view selected; and every
    such sequence runs to its end when [formData.parameters] is a list
    and no option call in it uses the key 'parameters'. *)
Theorem result_view_is_terminal s report :
  reportData s = Some report ->
  renderCurrentStep s = Normal (ReportVisualization report)
  /\ (forall ops s',
        performAll ops s = Normal s' ->
        reportData s' = Some report
        /\ renderCurrentStep s' = Normal (ReportVisualization report))
  /\ (forall ops a,
        parametersList s = Some a -> Forall keepsParameters ops ->
        exists s',
          performAll ops s = Normal s'
          /\ reportData s' = Some report
          /\ renderCurrentStep s' = Normal (ReportVisualization report)).
Proof.
  intros Hset.
  assert (Hkept : forall ops s', performAll ops s = Normal s' ->
            reportData s' = Some report
            /\ renderCurrentStep s' = Normal (ReportVisualization report)).
  { intros ops s' Hrun.
    assert (Hset' : reportData s' = Some report)
      by (rewrite (performAll_reportData ops s s' Hrun); exact Hset).
    split; [exact Hset'|]. apply renderCurrentStep_report. exact Hset'. }
  split; [apply renderCurrentStep_report; exact Hset|].
  split; [exact Hkept|].
  intros ops a Ha Hops.
  destruct (performAll_completes ops s a Ha Hops) as [s' Hrun].
  exists s'. split; [exact Hrun|]. exact (Hkept ops s' Hrun).
Qed.

(** *** Selected parameters stay distinct *)

Lemma question_id_ne_parameters question :
  question ∈ questions -> id question ≠ lit "parameters".
Proof.
  unfold questions. intros Hin.
  apply elem_of_cons in Hin as [->|Hin];
    [|apply elem_of_cons in Hin as [->|Hin]; [|inversion Hin]];
    intros Heq; vm_compute in Heq; discriminate Heq.
Qed.

Lemma handleGenerateReport_keepsFormData env s :
  keepsFormData (formData s) (handleGenerateReport env s).
Proof.
  unfold handleGenerateReport.
  destruct (formData s !! lit "location") as [[location|a]|]; simpl; trivial.
  destruct (JS.truthy (JS.trim location)); simpl; [|reflexivity].
  split; [reflexivity|].
  intros [report|[message|]] st; reflexivity.
Qed.

Lemma handleDownloadPDF_keepsFormData s :
  keepsFormData (formData s) (handleDownloadPDF s).
Proof.
  unfold handleDownloadPDF. destruct (reportData s) as [report|]; simpl.
  - split; [reflexivity|]. intros [u|reason] st; reflexivity.
  - reflexivity.
Qed.

Lemma handleOptionSelect_keeps_parameters questionId value s s' :
  questionId ≠ lit "parameters" ->
  handleOptionSelect questionId value s = Normal s' ->
  formData s' !! lit "parameters" = formData s !! lit "parameters".
Proof.
  intros Hkey. rewrite handleOptionSelect_eq. intros H. injection H as <-.
  simpl. apply lookup_insert_ne. exact Hkey.
Qed.

Lemma handleLocationChange_keeps_parameters value s s' :
  handleLocationChange value s = Normal s' ->
  formData s' !! lit "parameters" = formData s !! lit "parameters".
Proof.
  rewrite handleLocationChange_eq. intros H. injection H as <-.
  simpl. apply lookup_insert_ne. exact location_ne_parameters.
Qed.

Lemma handleParameterToggle_distinct parameter s a :
  parametersList s = Some a -> NoDup a ->
  exists s' a',
    handleParameterToggle parameter s = Normal s'
    /\ parametersList s' = Some a' /\ NoDup a'.
Proof.
  intros Ha Hnodup. rewrite (handleParameterToggle_list parameter s a Ha).
  eexists. eexists. split; [reflexivity|].
  split; [apply parametersList_withFormData|].
  apply toggle_keeps_NoDup. exact Hnodup.
Qed.

(** The invariant: [formData.parameters] is a list without duplicates. *)
Lemma parametersList_transfer s s' a :
  formData s' !! lit "parameters" = formData s !! lit "parameters" ->
  parametersList s = Some a -> parametersList s' = Some a.
Proof. unfold parametersList. intros ->. trivial. Qed.

Lemma reachable_distinct env s :
  reachable env s -> exists a, parametersList s = Some a /\ NoDup a.
Proof.
  induction 1 as
    [ | s question value s' _ IH Hq Hstep
      | s value s' _ IH Hstep
      | s parameter s' _ IH Hstep
      | s _ IH | s _ IH
      | s s' _ IH Hstep
      | s pending fd apiKey k _ IH Hstep
      | s0 pending fd apiKey k settled s _ _ Hstep _ IH
      | s0 pending report k settled s _ _ Hstep _ IH ].
  - exists []. split; [reflexivity|constructor].
  - destruct IH as (a & Ha & Hnodup). exists a. split; [|exact Hnodup].
    refine (parametersList_transfer s s' a _ Ha).
    exact (handleOptionSelect_keeps_parameters _ value s s'
             (question_id_ne_parameters question Hq) Hstep).
  - destruct IH as (a & Ha & Hnodup). exists a. split; [|exact Hnodup].
    refine (parametersList_transfer s s' a _ Ha).
    exact (handleLocationChange_keeps_parameters value s s' Hstep).
  - destruct IH as (a & Ha & Hnodup).
    destruct (handleParameterToggle_distinct parameter s a Ha Hnodup)
      as (s'' & a' & Hstep' & Ha' & Hnodup').
    rewrite Hstep in Hstep'. injection Hstep' as <-.
    exists a'. split; assumption.
  - exact IH.
  - exact IH.
  - destruct IH as (a & Ha & Hnodup). exists a. split; [|exact Hnodup].
    pose proof (handleGenerateReport_keepsFormData env s) as Hkeep.
    rewrite Hstep in Hkeep. simpl in Hkeep.
    refine (parametersList_transfer s s' a _ Ha). rewrite Hkeep. reflexivity.
  - destruct IH as (a & Ha & Hnodup). exists a. split; [|exact Hnodup].
    pose proof (handleGenerateReport_keepsFormData env s) as Hkeep.
    rewrite Hstep in Hkeep. destruct Hkeep as [Hkeep _].
    refine (parametersList_transfer s pending a _ Ha). rewrite Hkeep. reflexivity.
  - destruct IH as (a & Ha & Hnodup). exists a. split; [|exact Hnodup].
    pose proof (handleGenerateReport_keepsFormData env s0) as Hkeep.
    rewrite Hstep in Hkeep. destruct Hkeep as [_ Hkeep].
    refine (parametersList_transfer s _ a _ Ha). rewrite Hkeep. reflexivity.
  - destruct IH as (a & Ha & Hnodup). exists a. split; [|exact Hnodup].
    pose proof (handleDownloadPDF_keepsFormData s0) as Hkeep.
    rewrite Hstep in Hkeep. destruct Hkeep as [_ Hkeep].
    refine (parametersList_transfer s _ a _ Ha). rewrite Hkeep. reflexivity.
Qed.

(** C9, as amended. Starting from the initial empty form, with the
    option handler invoked on the identifiers of the declared questions
    only, as the component does, every reachable [formData.parameters]
    is a list without duplicate entries: [handleParameterToggle]
    preserves pairwise distinctness of a list, and no other operation
    modifies the field, the option handler as long as its key is not
    'parameters'. *)
Theorem parameters_stay_distinct env :
  (forall s, reachable env s ->
     exists a, parametersList s = Some a /\ NoDup a)
  /\ (forall parameter s a,
        parametersList s = Some a -> NoDup a ->
        exists s' a',
          handleParameterToggle parameter s = Normal s'
          /\ parametersList s' = Some a' /\ NoDup a')
  /\ (forall questionId value s s',
        questionId ≠ lit "parameters" ->
        handleOptionSelect questionId value s = Normal s' ->
        formData s' !! lit "parameters" = formData s !! lit "parameters")
  /\ (forall value s s',
        handleLocationChange value s = Normal s' ->
        formData s' !! lit "parameters" = formData s !! lit "parameters")
  /\ (forall f s, formData (setCurrentStep f s) = formData s)
  /\ (forall s, keepsFormData (formData s) (handleGenerateReport env s))
  /\ (forall s, keepsFormData (formData s) (handleDownloadPDF s)).
Proof.
  split; [exact (reachable_distinct env)|].
  split; [exact handleParameterToggle_distinct|].
  split; [exact handleOptionSelect_keeps_parameters|].
  split; [exact handleLocationChange_keeps_parameters|].
  split; [reflexivity|].
  split; [exact (handleGenerateReport_keepsFormData env)|].
  exact handleDownloadPDF_keepsFormData.
Qed.

(** *** No handler throws in a reachable state *)

Lemma question_id_ne_location question :
  question ∈ questions -> id question ≠ lit "location".
Proof.
  unfold questions. intros Hin.
  apply elem_of_cons in Hin as [->|Hin];
    [|apply elem_of_cons in Hin as [->|Hin]; [|inversion Hin]];
    intros Heq; vm_compute in Heq; discriminate Heq.
Qed.

Lemma handleParameterToggle_keeps_location parameter s s' :
  handleParameterToggle parameter s = Normal s' ->
  formData s' !! lit "location" = formData s !! lit "location".
Proof.
  rewrite handleParameterToggle_eq.
  destruct (toggledParameters parameter (formData s !! lit "parameters"));
    intros H; [|discriminate H].
  injection H as <-. simpl. apply lookup_insert_ne.
  intros Heq. symmetry in Heq. exact (location_ne_parameters Heq).
Qed.

Lemma reachable_location_string env s :
  reachable env s -> exists location, formData s !! lit "location" = Some (VStr location).
Proof.
  induction 1 as
    [ | s question value s' _ IH Hq Hstep
      | s value s' _ IH Hstep
      | s parameter s' _ IH Hstep
      | s _ IH | s _ IH
      | s s' _ IH Hstep
      | s pending fd apiKey k _ IH Hstep
      | s0 pending fd apiKey k settled s _ _ Hstep _ IH
      | s0 pending report k settled s _ _ Hstep _ IH ].
  - exists []. vm_compute. reflexivity.
  - destruct IH as [location Hloc]. exists location.
    rewrite handleOptionSelect_eq in Hstep. injection Hstep as <-. simpl.
    rewrite lookup_insert_ne by exact (question_id_ne_location question Hq).
    exact Hloc.
  - exists value. rewrite handleLocationChange_eq in Hstep.
    injection Hstep as <-. simpl. apply lookup_insert_eq.
  - destruct IH as [location Hloc]. exists location.
    rewrite (handleParameterToggle_keeps_location parameter s s' Hstep).
    exact Hloc.
  - exact IH.
  - exact IH.
  - pose proof (handleGenerateReport_keepsFormData env s) as Hkeep.
    rewrite Hstep in Hkeep. simpl in Hkeep. rewrite Hkeep. exact IH.
  - pose proof (handleGenerateReport_keepsFormData env s) as Hkeep.
    rewrite Hstep in Hkeep. destruct Hkeep as [Hkeep _]. rewrite Hkeep. exact IH.
  - pose proof (handleGenerateReport_keepsFormData env s0) as Hkeep.
    rewrite Hstep in Hkeep. destruct Hkeep as [_ Hkeep]. rewrite Hkeep. exact IH.
  - pose proof (handleDownloadPDF_keepsFormData s0) as Hkeep.
    rewrite Hstep in Hkeep. destruct Hkeep as [_ Hkeep]. rewrite Hkeep. exact IH.
Qed.

(** In every state the component reaches, [formData.location] is a
    string and [formData.parameters] a list, as the [FormData] interface
    declares: the toggle completes for every name,
    [handleGenerateReport] does not throw, and the Generate button's
    [disabled] attribute evaluates. *)
Theorem handlers_complete_when_reachable env s :
  reachable env s ->
  (forall parameter, exists s', handleParameterToggle parameter s = Normal s')
  /\ (forall e, handleGenerateReport env s ≠ Raise e)
  /\ (exists b, generateDisabled s = Normal b).
Proof.
  intros Hreach.
  destruct (reachable_distinct env s Hreach) as (a & Ha & _).
  destruct (reachable_location_string env s Hreach) as [location Hloc].
  split; [|split].
  - intros parameter. rewrite (handleParameterToggle_list parameter s a Ha).
    eexists. reflexivity.
  - intros e. unfold handleGenerateReport. rewrite Hloc.
    destruct (negb (JS.truthy (JS.trim location))); discriminate.
  - unfold generateDisabled. apply parametersList_Some in Ha.
    rewrite Ha, Hloc. destruct (isGenerating s); [eexists; reflexivity|].
    simpl. destruct (bool_decide (length a = 0%nat)); eexists; reflexivity.
Qed.

(** *** The blank test *)

Lemma trimStart_nil (str : jsstring) :
  JS.trimStart str = [] <-> Forall (fun c => JS.isWhiteSpace c = true) str.
Proof.
  induction str as [|c str IH]; simpl.
  - split; [constructor|reflexivity].
  - destruct (JS.isWhiteSpace c) eqn:Hc.
    + rewrite IH. split.
      * intros Hall. constructor; assumption.
      * intros Hall. apply Forall_cons in Hall as [_ Hall]. exact Hall.
    + split; [discriminate|].
      intros Hall. apply Forall_cons in Hall as [Hc' _]. congruence.
Qed.

Lemma trimStart_head (str : jsstring) c rest :
  JS.trimStart str = c :: rest -> JS.isWhiteSpace c = false.
Proof.
  induction str as [|d str IH]; simpl; [discriminate|].
  destruct (JS.isWhiteSpace d) eqn:Hd; [exact IH|].
  intros Heq. injection Heq as -> _. exact Hd.
Qed.

Lemma trim_nil (str : jsstring) :
  JS.trim str = [] <-> Forall (fun c => JS.isWhiteSpace c = true) str.
Proof.
  unfold JS.trim, JS.trimEnd. rewrite <- trimStart_nil. split.
  - intros Hrev.
    assert (Hend : JS.trimStart (rev (JS.trimStart str)) = []).
    { destruct (JS.trimStart (rev (JS.trimStart str))) as [|c rest];
        [reflexivity|].
      simpl in Hrev. destruct (rev rest); discriminate Hrev. }
    apply trimStart_nil in Hend.
    destruct (JS.trimStart str) as [|c rest] eqn:Hstart; [reflexivity|].
    apply trimStart_head in Hstart.
    apply Forall_rev in Hend. rewrite rev_involutive in Hend.
    apply Forall_cons in Hend as [Hc _]. congruence.
  - intros ->. reflexivity.
Qed.

(** The validation of [handleGenerateReport] rejects exactly the
    locations made of white space and line terminators only, the empty
    one among them: for a string location the handler ends at once with
    the error, making no call, if and only if every code unit of the
    location is one [trim] strips. *)
Theorem validation_rejects_exactly_whitespace env s location :
  formData s !! lit "location" = Some (VStr location) ->
  (handleGenerateReport env s
   = Done (setError (Some (lit "Please enter a location")) s)
   <-> Forall (fun c => JS.isWhiteSpace c = true) location)
  /\ ((exists s', handleGenerateReport env s = Done s')
      <-> Forall (fun c => JS.isWhiteSpace c = true) location).
Proof.
  intros Hloc. rewrite <- trim_nil.
  unfold handleGenerateReport. rewrite Hloc.
  destruct (JS.trim location) as [|c rest] eqn:Htrim; simpl.
  - split; split; intros _; [reflexivity|reflexivity|reflexivity|eexists; reflexivity].
  - split; split; intros H; try discriminate H.
    destruct H as [s' H]. discriminate H.
Qed.

(** *** The Generate button and its handler *)

Lemma handleGenerateReport_await env s pending fd apiKey k :
  handleGenerateReport env s = AwaitGenerateReport pending fd apiKey k ->
  pending = setError None (setIsGenerating true s)
  /\ fd = formData s
  /\ apiKey = JS.orElse (VITE_PERPLEXITY_API_KEY env) []
  /\ k = onGenerateSettled
  /\ exists location,
       stringField (lit "location") (formData s) = Some location
       /\ JS.trim location ≠ [].
Proof.
  unfold handleGenerateReport, stringField.
  destruct (formData s !! lit "location") as [[location|a]|]; try discriminate.
  destruct (JS.trim location) as [|c rest] eqn:Htrim; simpl; [discriminate|].
  intros H. injection H as <- <- <- <-.
  repeat split. exists location. split; [reflexivity|].
  rewrite Htrim. discriminate.
Qed.

Lemma handleDownloadPDF_await s pending report k :
  handleDownloadPDF s = AwaitDownloadReportAsPDF pending report k ->
  pending = s /\ reportData s = Some report /\ k = onDownloadSettled.
Proof.
  unfold handleDownloadPDF. destruct (reportData s) as [r|]; [|discriminate].
  intros H. injection H as <- <- <-. repeat split.
Qed.

(** Whenever the Generate button is enabled, no request is in flight,
    [formData.parameters] is not empty, and a click issues the call: it
    suspends on [generateReport] with the form as it stands, having
    raised [isGenerating] and cleared [error]. The handler's own check
    of the location never fails on a click, so a click never produces
    'Please enter a location'. *)
Theorem enabled_generate_issues_call env s :
  generateDisabled s = Normal false ->
  isGenerating s = false
  /\ formData s !! lit "parameters" ≠ Some (VArr [])
  /\ formData s !! lit "parameters" ≠ Some (VStr [])
  /\ handleGenerateReport env s
     = AwaitGenerateReport (setError None (setIsGenerating true s)) (formData s)
         (JS.orElse (VITE_PERPLEXITY_API_KEY env) []) onGenerateSettled.
Proof.
  unfold generateDisabled, handleGenerateReport.
  destruct (isGenerating s); [discriminate|].
  destruct (formData s !! lit "parameters") as [[str|a]|]; simpl;
    try discriminate.
  - destruct str as [|c str]; simpl; [discriminate|].
    destruct (formData s !! lit "location") as [[location|a]|]; try discriminate.
    destruct (JS.truthy (JS.trim location)); simpl; [|discriminate].
    intros _. repeat split; discriminate.
  - destruct a as [|p a]; simpl; [discriminate|].
    destruct (formData s !! lit "location") as [[location|a']|]; try discriminate.
    destruct (JS.truthy (JS.trim location)); simpl; [|discriminate].
    intros _. repeat split; discriminate.
Qed.

(** *** The rendering selection, case by case *)

Lemma questionAt_in_range i :
  0 <= i < 2 ->
  exists question,
    questionAt i = Some question /\ question ∈ questions
    /\ ((i = 0 /\ id question = lit "reportType")
        \/ (i = 1 /\ id question = lit "period")).
Proof.
  intros Hrange.
  assert (Hi : i = 0 \/ i = 1) by lia.
  destruct Hi as [-> | ->]; eexists; (split; [reflexivity|]); split.
  - unfold questions. apply elem_of_cons. left. reflexivity.
  - left. split; reflexivity.
  - unfold questions. apply elem_of_cons. right. apply elem_of_cons. left. reflexivity.
  - right. split; reflexivity.
Qed.

Lemma questionAt_out_of_range i : i < 0 \/ 2 <= i -> questionAt i = None.
Proof.
  intros Hout. unfold questionAt. destruct (0 <=? i) eqn:Hsign; [|reflexivity].
  apply Z.leb_le in Hsign. apply lookup_ge_None. simpl. lia.
Qed.

Lemma questionAt_range i question :
  questionAt i = Some question -> 0 <= i < 2.
Proof.
  intros Hq. destruct (Z.lt_ge_cases i 0) as [Hneg|Hpos].
  - rewrite questionAt_out_of_range in Hq by lia. discriminate Hq.
  - destruct (Z.lt_ge_cases i 2) as [Hlt|Hge]; [lia|].
    rewrite questionAt_out_of_range in Hq by lia. discriminate Hq.
Qed.

(** What [renderCurrentStep] selects, for every state: the report when
    there is one, whatever the step; else the details screen at step 2,
    the question of that index at steps 0 and 1 with the stored answer
    as its selection, and for any other step an exception, [questions]
    having no entry there. *)
Theorem rendering_selection s :
  (forall report, reportData s = Some report ->
     renderCurrentStep s = Normal (ReportVisualization report))
  /\ (reportData s = None -> currentStep s = 2 ->
      renderCurrentStep s
      = Normal (LocationAndParameters (formData s !! lit "location")
                                      (formData s !! lit "parameters")))
  /\ (reportData s = None -> 0 <= currentStep s < 2 ->
      exists question,
        questions !! Z.to_nat (currentStep s) = Some question
        /\ renderCurrentStep s
           = Normal (ReportQuestion question (formData s !! id question)))
  /\ (reportData s = None -> currentStep s < 0 \/ 2 < currentStep s ->
      renderCurrentStep s = Throw TypeError).
Proof.
  split; [exact (renderCurrentStep_report s)|].
  unfold renderCurrentStep. split; [|split].
  - intros -> ->. reflexivity.
  - intros -> Hrange.
    destruct (questionAt_in_range (currentStep s) Hrange) as (question & Hq & _).
    exists question. split.
    + unfold questionAt in Hq. destruct (0 <=? currentStep s); [exact Hq|discriminate Hq].
    + replace (currentStep s =? Z.of_nat (length questions)) with false
        by (symmetry; apply Z.eqb_neq; simpl; lia).
      rewrite Hq. reflexivity.
  - intros -> Hout.
    replace (currentStep s =? Z.of_nat (length questions)) with false
      by (symmetry; apply Z.eqb_neq; simpl; lia).
    rewrite questionAt_out_of_range by lia. reflexivity.
Qed.

(** *** Answering a question *)

Lemma renderCurrentStep_question s question selected :
  renderCurrentStep s = Normal (ReportQuestion question selected) ->
  reportData s = None /\ questionAt (currentStep s) = Some question
  /\ 0 <= currentStep s < 2 /\ selected = formData s !! id question.
Proof.
  unfold renderCurrentStep. destruct (reportData s) as [report|]; [discriminate|].
  destruct (currentStep s =? Z.of_nat (length questions)); [discriminate|].
  destruct (questionAt (currentStep s)) as [q|] eqn:Hq; [|discriminate].
  intros H. injection H as <- <-.
  split; [reflexivity|]. split; [reflexivity|].
  split; [exact (questionAt_range _ _ Hq)|reflexivity].
Qed.

(** On a question screen, selecting an answer stores it where the screen
    reads its selection from: the question is rendered again with that
    answer selected, every other field and the step are as before, and
    Next is enabled exactly when the answer is not the empty string, a
    click then moving one step on. *)
Theorem selected_answer_is_shown s question selected value :
  renderCurrentStep s = Normal (ReportQuestion question selected) ->
  exists s',
    handleOptionSelect (id question) value s = Normal s'
    /\ renderCurrentStep s'
       = Normal (ReportQuestion question (Some (VStr value)))
    /\ currentStep s' = currentStep s
    /\ (forall key, key ≠ id question -> formData s' !! key = formData s !! key)
    /\ clickNext s'
       = Normal (if JS.truthy value
                 then setCurrentStep (fun prev => prev + 1) s'
                 else s').
Proof.
  intros Hview.
  destruct (renderCurrentStep_question s question selected Hview)
    as (Hnone & Hq & Hrange & _).
  rewrite handleOptionSelect_eq. eexists. split; [reflexivity|].
  assert (Hstep : (currentStep s =? Z.of_nat (length questions)) = false)
    by (apply Z.eqb_neq; simpl; lia).
  assert (Hlt : (currentStep s <? Z.of_nat (length questions)) = true)
    by (apply Z.ltb_lt; simpl; lia).
  split; [|split; [reflexivity|split]].
  - unfold renderCurrentStep.
    cbn [reportData currentStep formData setError withFormData].
    rewrite Hnone, Hstep, Hq, lookup_insert_eq. reflexivity.
  - intros key Hkey. simpl. apply lookup_insert_ne. congruence.
  - unfold clickNext, nextButton.
    cbn [reportData currentStep formData setError withFormData].
    rewrite Hnone, Hlt, Hq, lookup_insert_eq. unfold click. simpl.
    destruct (JS.truthy value); reflexivity.
Qed.

(** *** Selecting and deselecting a parameter *)

Lemma filter_length_once (parameter : jsstring) (a : list jsstring) :
  NoDup a -> parameter ∈ a ->
  length a = S (length (filter (fun p => p ≠ parameter) a)).
Proof.
  induction a as [|p a IH]; intros Hnodup Hin; [inversion Hin|].
  apply NoDup_cons in Hnodup as [Hfresh Hnodup].
  destruct (decide (p = parameter)) as [->|Hne].
  - rewrite filter_cons_False by (intros Hne; apply Hne; reflexivity).
    rewrite filter_absent by exact Hfresh. reflexivity.
  - rewrite filter_cons_True by exact Hne. simpl. f_equal.
    apply IH; [exact Hnodup|].
    apply elem_of_cons in Hin as [Heq|Hin]; [congruence|exact Hin].
Qed.

(** On a list, one toggle flips the membership of the name toggled and
    of no other: a name that was absent is appended once, so the list
    is one longer; a name that was present loses every occurrence, so a
    list without duplicates is one shorter. The names that stay keep
    their order. *)
Theorem toggle_flips_membership parameter s a :
  parametersList s = Some a ->
  exists s' a',
    handleParameterToggle parameter s = Normal s'
    /\ parametersList s' = Some a'
    /\ (parameter ∈ a' <-> parameter ∉ a)
    /\ (forall p, p ≠ parameter -> (p ∈ a' <-> p ∈ a))
    /\ (parameter ∉ a -> a' = a ++ [parameter])
    /\ (parameter ∈ a -> filter (fun p => p ≠ parameter) a' = a'
                         /\ a' = filter (fun p => p ≠ parameter) a)
    /\ (NoDup a -> parameter ∈ a -> length a = S (length a')).
Proof.
  intros Ha. rewrite (handleParameterToggle_list parameter s a Ha).
  eexists. eexists. split; [reflexivity|].
  split; [apply parametersList_withFormData|].
  destruct (decide (parameter ∈ a)) as [Hin|Hout].
  - split; [|split; [|split; [|split]]].
    + split; [intros Hin'; exfalso; exact (filter_removes parameter a Hin')|].
      intros Hout. contradiction.
    + intros p Hne. rewrite list_elem_of_filter. split; [intros [_ Hp]; exact Hp|].
      intros Hp. split; assumption.
    + intros Hout. contradiction.
    + intros _. split; [|reflexivity].
      apply filter_absent. apply filter_removes.
    + intros Hnodup _. apply filter_length_once; assumption.
  - split; [|split; [|split; [|split]]].
    + split; [intros _; exact Hout|]. intros _. apply elem_of_app. right.
      apply list_elem_of_singleton. reflexivity.
    + intros p Hne. rewrite elem_of_app, list_elem_of_singleton.
      split; [intros [Hp|Heq]; [exact Hp|contradiction]|]. intros Hp. left. exact Hp.
    + intros _. reflexivity.
    + intros Hin. contradiction.
    + intros _ Hin. contradiction.
Qed.

(** *** Downloads that succeed, and those not made *)

(** A download that succeeds writes nothing: the state is exactly what
    it was, so an error shown before the download is still shown after
    it. Without a report the handler makes no call at all. *)
Theorem download_success_changes_nothing svc s :
  (forall report done,
     reportData s = Some report ->
     downloadReportAsPDF svc report = Fulfilled done ->
     run svc (handleDownloadPDF s)
     = (Normal s, [CallDownloadReportAsPDF report]))
  /\ (reportData s = None -> run svc (handleDownloadPDF s) = (Normal s, [])).
Proof.
  unfold handleDownloadPDF. split.
  - intros report done Hset Hdone. rewrite Hset. unfold run.
    rewrite Hdone. reflexivity.
  - intros Hunset. rewrite Hunset. reflexivity.
Qed.

(** *** The error banner *)

(** The banner shows exactly a non-empty [error]. A generation that
    fails with an [Error] whose message is empty therefore fails
    silently: [error] is set, to the empty string, no banner is
    rendered, there is no report, and [isGenerating] is false again. *)
Theorem empty_message_failure_is_silent svc env s location :
  formData s !! lit "location" = Some (VStr location) ->
  JS.trim location ≠ [] ->
  generateReport svc (formData s) (JS.orElse (VITE_PERPLEXITY_API_KEY env) [])
  = Rejected (ThrownError []) ->
  (forall st, errorBanner st = None <-> error st = None \/ error st = Some [])
  /\ exists s',
       fst (run svc (handleGenerateReport env s)) = Normal s'
       /\ error s' = Some []
       /\ errorBanner s' = None
       /\ reportData s' = reportData s
       /\ isGenerating s' = false.
Proof.
  intros Hloc Hnonblank Hrejected. split.
  - intros st. unfold errorBanner. destruct (error st) as [[|c message]|]; simpl.
    + split; [right; reflexivity|reflexivity].
    + split; [discriminate|]. intros [H|H]; discriminate H.
    + split; [left; reflexivity|reflexivity].
  - destruct (handleGenerateReport_suspends env s location Hloc Hnonblank)
      as (k & Hrun & _ & Herror & _).
    rewrite Hrun. unfold run. rewrite Hrejected, Herror.
    eexists. split; [reflexivity|]. unfold errorBanner. simpl.
    repeat split.
Qed.

(** *** Next and Previous undo each other *)

Lemma setCurrentStep_inverse (f g : Z -> Z) s :
  (forall step, f (g step) = step) ->
  setCurrentStep f (setCurrentStep g s) = s.
Proof.
  intros Hinv. destruct s as [step generating err report form].
  unfold setCurrentStep. simpl. rewrite Hinv. reflexivity.
Qed.

(** On a question screen whose question is answered, a click on Next
    moves one step on and a click on Previous then gives back the very
    state left; and wherever Previous is enabled and the question before
    is answered, Previous followed by Next does. *)
Theorem next_and_previous_are_inverse s :
  (forall question selected,
     renderCurrentStep s = Normal (ReportQuestion question selected) ->
     fieldTruthy selected = true ->
     exists s1,
       clickNext s = Normal s1
       /\ currentStep s1 = currentStep s + 1
       /\ clickPrevious s1 = s)
  /\ (forall question,
        reportData s = None ->
        questionAt (currentStep s - 1) = Some question ->
        fieldTruthy (formData s !! id question) = true ->
        currentStep (clickPrevious s) = currentStep s - 1
        /\ clickNext (clickPrevious s) = Normal s).
Proof.
  split.
  - intros question selected Hview Hanswered.
    destruct (renderCurrentStep_question s question selected Hview)
      as (Hnone & Hq & Hrange & ->).
    assert (Hlt : (currentStep s <? Z.of_nat (length questions)) = true)
      by (apply Z.ltb_lt; simpl; lia).
    unfold clickNext, nextButton. rewrite Hnone, Hlt, Hq. simpl.
    unfold click. simpl. rewrite Hanswered. simpl.
    eexists. split; [reflexivity|]. split; [reflexivity|].
    unfold clickPrevious, previousButton, click. simpl. rewrite Hnone. simpl.
    replace (currentStep s + 1 =? 0) with false
      by (symmetry; apply Z.eqb_neq; lia).
    apply setCurrentStep_inverse. intros step. lia.
  - intros question Hnone Hq Hanswered.
    pose proof (questionAt_range _ _ Hq) as Hrange.
    assert (Hback : clickPrevious s = setCurrentStep (fun prev => prev - 1) s).
    { unfold clickPrevious, previousButton, click. rewrite Hnone. simpl.
      replace (currentStep s =? 0) with false
        by (symmetry; apply Z.eqb_neq; lia).
      reflexivity. }
    rewrite Hback. split; [reflexivity|].
    unfold clickNext, nextButton.
    cbn [reportData currentStep formData setCurrentStep].
    assert (Hlt : (currentStep s - 1 <? Z.of_nat (length questions)) = true)
      by (apply Z.ltb_lt; simpl; lia).
    rewrite Hnone, Hlt, Hq. simpl. unfold click. simpl.
    rewrite Hanswered. simpl. f_equal.
    apply setCurrentStep_inverse. intros step. lia.
Qed.

(** *** The form along a session *)

Implicit Types (key : jsstring).

Lemma stringField_Some key (fd : FormData) (value : jsstring) :
  stringField key fd = Some value <-> fd !! key = Some (VStr value).
Proof.
  unfold stringField. destruct (fd !! key) as [[str|a]|]; split; congruence.
Qed.

Lemma stringField_insert_eq key (v : jsstring) (fd : FormData) :
  stringField key (<[key := VStr v]> fd) = Some v.
Proof. unfold stringField. rewrite lookup_insert_eq. reflexivity. Qed.

Lemma stringField_insert_ne key key' (v : JSValue) (fd : FormData) :
  key ≠ key' -> stringField key' (<[key := v]> fd) = stringField key' fd.
Proof. intros Hne. unfold stringField. rewrite lookup_insert_ne by exact Hne. reflexivity. Qed.

Lemma answered_insert_ne key key' (v : JSValue) (fd : FormData) :
  key ≠ key' -> answered key' fd -> answered key' (<[key := v]> fd).
Proof.
  intros Hne (value & Hvalue & Hfilled). exists value.
  rewrite stringField_insert_ne by exact Hne. split; assumption.
Qed.

Lemma answered_truthy key (fd : FormData) :
  is_Some (stringField key fd) -> fieldTruthy (fd !! key) = true ->
  answered key fd.
Proof.
  intros [value Hvalue] Htruthy. exists value. split; [exact Hvalue|].
  apply stringField_Some in Hvalue. rewrite Hvalue in Htruthy. simpl in Htruthy.
  apply truthy_true. exact Htruthy.
Qed.

(** The four keys are pairwise different. *)
Ltac different_keys := intros Hsame; vm_compute in Hsame; discriminate Hsame.

Lemma formTyped_insert_string key (v : jsstring) (fd : FormData) :
  key = lit "reportType" \/ key = lit "location" \/ key = lit "period" ->
  formTyped fd -> formTyped (<[key := VStr v]> fd).
Proof.
  intros Hkey (Htype & Hloc & Hperiod & a & Ha & Hnodup).
  assert (Hstring : forall key', is_Some (stringField key' fd) ->
            is_Some (stringField key' (<[key := VStr v]> fd))).
  { intros key' Hsome. destruct (decide (key = key')) as [<-|Hne].
    - rewrite stringField_insert_eq. eexists. reflexivity.
    - rewrite stringField_insert_ne by exact Hne. exact Hsome. }
  split; [apply Hstring; exact Htype|].
  split; [apply Hstring; exact Hloc|].
  split; [apply Hstring; exact Hperiod|].
  exists a. split; [|exact Hnodup].
  rewrite lookup_insert_ne; [exact Ha|].
  destruct Hkey as [->|[->| ->]]; different_keys.
Qed.

Lemma formTyped_insert_parameters (a : list jsstring) (fd : FormData) :
  NoDup a -> formTyped fd -> formTyped (<[lit "parameters" := VArr a]> fd).
Proof.
  intros Hnodup (Htype & Hloc & Hperiod & _).
  split; [|split; [|split]].
  - rewrite stringField_insert_ne by different_keys. exact Htype.
  - rewrite stringField_insert_ne by different_keys. exact Hloc.
  - rewrite stringField_insert_ne by different_keys. exact Hperiod.
  - exists a. split; [apply lookup_insert_eq|exact Hnodup].
Qed.

Lemma initialFormData_typed : formTyped initialFormData.
Proof.
  split; [|split; [|split]]; try (exists []; vm_compute; reflexivity).
  exists []. split; [vm_compute; reflexivity|constructor].
Qed.

(** *** What is on the screen in a well-formed state *)

Lemma generateDisabled_typed s :
  formTyped (formData s) -> exists d, generateDisabled s = Normal d.
Proof.
  intros (_ & [location Hloc] & _ & a & Ha & _).
  apply stringField_Some in Hloc.
  unfold generateDisabled. rewrite Ha, Hloc.
  destruct (isGenerating s); [eexists; reflexivity|]. simpl.
  destruct (bool_decide (length a = 0%nat)); eexists; reflexivity.
Qed.

Lemma AIReports_cases s :
  formTyped (formData s) -> 0 <= currentStep s <= 2 ->
  (exists report,
     reportData s = Some report
     /\ AIReports s
        = Normal {| banner := errorBanner s; progress := None;
                    body := ReportVisualization report; navigation := None |})
  \/ (exists question,
        reportData s = None /\ 0 <= currentStep s < 2
        /\ questionAt (currentStep s) = Some question
        /\ question ∈ questions
        /\ AIReports s
           = Normal {| banner := errorBanner s;
                       progress := Some (progressWidth (currentStep s));
                       body := ReportQuestion question (formData s !! id question);
                       navigation :=
                         Some ({| onClick := setCurrentStep (fun prev => prev - 1);
                                  disabled := currentStep s =? 0 |},
                               ForwardNext
                                 {| onClick := setCurrentStep (fun prev => prev + 1);
                                    disabled :=
                                      negb (fieldTruthy (formData s !! id question)) |}) |})
  \/ (exists d,
        reportData s = None /\ currentStep s = 2
        /\ generateDisabled s = Normal d
        /\ AIReports s
           = Normal {| banner := errorBanner s;
                       progress := Some (progressWidth (currentStep s));
                       body := LocationAndParameters (formData s !! lit "location")
                                                     (formData s !! lit "parameters");
                       navigation :=
                         Some ({| onClick := setCurrentStep (fun prev => prev - 1);
                                  disabled := currentStep s =? 0 |},
                               ForwardGenerate d) |}).
Proof.
  intros Htyped Hbounds.
  unfold AIReports, renderCurrentStep, previousButton, nextButton.
  destruct (reportData s) as [report|] eqn:Hreport.
  - left. exists report. split; reflexivity.
  - right. destruct (Z.eq_dec (currentStep s) 2) as [Hlast|Hnot].
    + right. destruct (generateDisabled_typed s Htyped) as [d Hd].
      exists d. split; [reflexivity|]. split; [exact Hlast|]. split; [exact Hd|].
      rewrite Hd, Hlast. reflexivity.
    + left. assert (Hrange : 0 <= currentStep s < 2) by lia.
      destruct (questionAt_in_range _ Hrange) as (question & Hq & Hin & _).
      exists question. split; [reflexivity|]. split; [exact Hrange|].
      split; [exact Hq|]. split; [exact Hin|].
      replace (currentStep s =? Z.of_nat (length questions)) with false
        by (symmetry; apply Z.eqb_neq; simpl; lia).
      replace (currentStep s <? Z.of_nat (length questions)) with true
        by (symmetry; apply Z.ltb_lt; simpl; lia).
      rewrite Hq. reflexivity.
Qed.

(** *** Every event keeps the session well formed *)

Implicit Types (σ : @Session ProcessedReport).

Lemma sessionOK_withState env σ s' :
  sessionOK env σ ->
  formTyped (formData s') -> stepsAnswered s' ->
  isGenerating s' = isGenerating (state σ) ->
  reportData s' = reportData (state σ) ->
  sessionOK env (withState s' σ).
Proof.
  intros (_ & _ & (Hk & Hgen & Hdown) & Hcalls) Htyped Hsteps Hg Hr.
  split; [exact Htyped|]. split; [exact Hsteps|]. split.
  - unfold flightsTracked. simpl. rewrite Hg, Hr. auto.
  - simpl. eapply Forall_impl; [exact Hcalls|].
    intros [fd apiKey|report]; simpl; [auto|congruence].
Qed.

Lemma sessionOK_same env σ : sessionOK env σ -> sessionOK env (withState (state σ) σ).
Proof.
  intros Hok. pose proof Hok as (Htyped & Hsteps & _).
  apply sessionOK_withState; auto.
Qed.

Lemma stepsAnswered_select s question (value : jsstring) :
  stepsAnswered s -> questionAt (currentStep s) = Some question ->
  stepsAnswered
    (setError None (withFormData (<[id question := VStr value]> (formData s)) s)).
Proof.
  intros (Hbounds & Hfirst & Hsecond) Hq.
  pose proof (questionAt_range _ _ Hq) as Hrange.
  destruct (questionAt_in_range _ Hrange) as (question' & Hq' & _ & Hid).
  rewrite Hq in Hq'. injection Hq' as <-.
  split; [exact Hbounds|]. simpl. split.
  - intros Hstep. destruct Hid as [[Hzero _]|[_ ->]]; [lia|].
    apply answered_insert_ne; [different_keys|]. exact (Hfirst Hstep).
  - intros Hstep. lia.
Qed.

Lemma stepsAnswered_details s key (v : JSValue) :
  key = lit "location" \/ key = lit "parameters" ->
  stepsAnswered s ->
  stepsAnswered (setError None (withFormData (<[key := v]> (formData s)) s)).
Proof.
  intros Hkey (Hbounds & Hfirst & Hsecond).
  split; [exact Hbounds|]. simpl. split; intros Hstep.
  - apply answered_insert_ne; [destruct Hkey as [->| ->]; different_keys|].
    exact (Hfirst Hstep).
  - apply answered_insert_ne; [destruct Hkey as [->| ->]; different_keys|].
    exact (Hsecond Hstep).
Qed.

Lemma stepsAnswered_previous s :
  stepsAnswered s -> currentStep s ≠ 0 ->
  stepsAnswered (setCurrentStep (fun prev => prev - 1) s).
Proof.
  intros (Hbounds & Hfirst & Hsecond) Hpositive.
  split; simpl; [lia|]. split; intros Hstep; [apply Hfirst|apply Hsecond]; lia.
Qed.

Lemma stepsAnswered_next s question :
  formTyped (formData s) -> stepsAnswered s ->
  questionAt (currentStep s) = Some question ->
  fieldTruthy (formData s !! id question) = true ->
  stepsAnswered (setCurrentStep (fun prev => prev + 1) s).
Proof.
  intros (Htype & _ & Hperiod & _) (Hbounds & Hfirst & Hsecond) Hq Htruthy.
  pose proof (questionAt_range _ _ Hq) as Hrange.
  destruct (questionAt_in_range _ Hrange) as (question' & Hq' & _ & Hid).
  rewrite Hq in Hq'. injection Hq' as <-.
  split; simpl; [lia|]. split; intros Hstep.
  - destruct Hid as [[Hzero Hkey]|[Hone _]]; [|apply Hfirst; lia].
    rewrite Hkey in Htruthy. apply answered_truthy; assumption.
  - destruct Hid as [[Hzero _]|[_ Hkey]]; [lia|].
    rewrite Hkey in Htruthy. apply answered_truthy; assumption.
Qed.

(** A tactic for the three screens of a well-formed session. *)
Ltac on_screen σ Hok :=
  let Htyped := fresh "Htyped" in
  let Hsteps := fresh "Hsteps" in
  let Hflight := fresh "Hflight" in
  let Hcalls := fresh "Hcalls" in
  let Hbounds := fresh "Hbounds" in
  pose proof Hok as (Htyped & Hsteps & Hflight & Hcalls);
  pose proof Hsteps as (Hbounds & _);
  unfold dispatch;
  destruct (AIReports_cases (state σ) Htyped Hbounds)
    as [(report & Hreport & ->)
       |[(question & Hnone & Hrange & Hq & Hin & ->)
        |(d & Hnone & Hlast & Hd & ->)]];
  simpl.

Ltac unchanged σ Hok := exists σ; split; [reflexivity|exact Hok].

Lemma dispatch_select env σ value :
  sessionOK env σ ->
  exists σ', dispatch env (SelectAnswer value) σ = Normal σ' /\ sessionOK env σ'.
Proof.
  intros Hok. on_screen σ Hok; [unchanged σ Hok| |unchanged σ Hok].
  eexists. split; [reflexivity|].
  apply sessionOK_withState; [exact Hok| | |reflexivity|reflexivity].
  - simpl. apply formTyped_insert_string; [|exact Htyped].
    destruct (questionAt_in_range _ Hrange) as (question' & Hq' & _ & Hid).
    rewrite Hq in Hq'. injection Hq' as <-.
    destruct Hid as [[_ ->]|[_ ->]]; auto.
  - apply stepsAnswered_select; assumption.
Qed.

Lemma dispatch_location env σ value :
  sessionOK env σ ->
  exists σ', dispatch env (ChangeLocation value) σ = Normal σ' /\ sessionOK env σ'.
Proof.
  intros Hok. on_screen σ Hok; [unchanged σ Hok|unchanged σ Hok|].
  eexists. split; [reflexivity|].
  apply sessionOK_withState; [exact Hok| | |reflexivity|reflexivity].
  - simpl. apply formTyped_insert_string; [auto|exact Htyped].
  - apply stepsAnswered_details; [auto|exact Hsteps].
Qed.

Lemma dispatch_toggle env σ parameter :
  sessionOK env σ ->
  exists σ', dispatch env (ToggleCheckbox parameter) σ = Normal σ' /\ sessionOK env σ'.
Proof.
  intros Hok. on_screen σ Hok; [unchanged σ Hok|unchanged σ Hok|].
  destruct Htyped as (Htype & Hloc & Hperiod & a & Ha & Hnodup).
  rewrite (handleParameterToggle_list parameter (state σ) a)
    by (apply parametersList_Some; exact Ha).
  simpl. eexists. split; [reflexivity|].
  apply sessionOK_withState; [exact Hok| | |reflexivity|reflexivity].
  - simpl. apply formTyped_insert_parameters.
    + apply toggle_keeps_NoDup. exact Hnodup.
    + split; [exact Htype|]. split; [exact Hloc|]. split; [exact Hperiod|].
      exists a. split; assumption.
  - apply stepsAnswered_details; [auto|exact Hsteps].
Qed.

Lemma dispatch_previous env σ :
  sessionOK env σ ->
  exists σ', dispatch env ClickPrevious σ = Normal σ' /\ sessionOK env σ'.
Proof.
  intros Hok.
  assert (Hclick : sessionOK env
            (withState (click {| onClick := setCurrentStep (fun prev => prev - 1);
                                 disabled := currentStep (state σ) =? 0 |}
                          (state σ)) σ)).
  { unfold click. simpl.
    destruct (currentStep (state σ) =? 0) eqn:Hzero; [apply sessionOK_same; exact Hok|].
    apply Z.eqb_neq in Hzero. pose proof Hok as (Htyped & Hsteps & _).
    apply sessionOK_withState; [exact Hok|exact Htyped| |reflexivity|reflexivity].
    apply stepsAnswered_previous; assumption. }
  on_screen σ Hok; [unchanged σ Hok| |];
    (eexists; split; [reflexivity|exact Hclick]).
Qed.

Lemma dispatch_next env σ :
  sessionOK env σ ->
  exists σ', dispatch env ClickNext σ = Normal σ' /\ sessionOK env σ'.
Proof.
  intros Hok. on_screen σ Hok; [unchanged σ Hok| |unchanged σ Hok].
  eexists. split; [reflexivity|]. unfold click. simpl.
  destruct (fieldTruthy (formData (state σ) !! id question)) eqn:Htruthy; simpl;
    [|apply sessionOK_same; exact Hok].
  apply sessionOK_withState; [exact Hok|exact Htyped| |reflexivity|reflexivity].
  apply (stepsAnswered_next (state σ) question); assumption.
Qed.

Lemma readyForm_at_details s :
  formTyped (formData s) -> stepsAnswered s -> currentStep s = 2 ->
  generateDisabled s = Normal false ->
  readyForm (formData s).
Proof.
  intros (_ & _ & _ & a & Ha & Hnodup) (_ & Hfirst & Hsecond) Hlast Henabled.
  destruct (enabled_generate_issues_call
              {| VITE_PERPLEXITY_API_KEY := None |} s Henabled)
    as (_ & Hnonempty & _ & Hawait).
  apply handleGenerateReport_await in Hawait as (_ & _ & _ & _ & Hlocation).
  split; [apply Hfirst; lia|]. split; [apply Hsecond; lia|].
  split; [exact Hlocation|].
  exists a. split; [exact Ha|]. split; [|exact Hnodup].
  intros ->. exact (Hnonempty Ha).
Qed.

Lemma dispatch_generate env σ :
  sessionOK env σ ->
  exists σ', dispatch env ClickGenerate σ = Normal σ' /\ sessionOK env σ'.
Proof.
  intros Hok. on_screen σ Hok; [unchanged σ Hok|unchanged σ Hok|].
  destruct d; [unchanged σ Hok|].
  destruct (enabled_generate_issues_call env (state σ) Hd)
    as (Hidle & _ & _ & ->).
  simpl. eexists. split; [reflexivity|].
  destruct Hflight as (Hk & Hgen & Hdown). rewrite Hidle in Hgen.
  split; [exact Htyped|]. split; [exact Hsteps|]. split.
  - unfold flightsTracked. simpl. rewrite Hgen. simpl.
    split; [repeat constructor|]. split; [split; [reflexivity|exact Hnone]|].
    exact Hdown.
  - simpl. apply Forall_app. split; [exact Hcalls|].
    constructor; [|constructor]. simpl. split; [|reflexivity].
    apply readyForm_at_details; assumption.
Qed.

Lemma dispatch_download env σ :
  sessionOK env σ ->
  exists σ', dispatch env ClickDownload σ = Normal σ' /\ sessionOK env σ'.
Proof.
  intros Hok. on_screen σ Hok; [|unchanged σ Hok|unchanged σ Hok].
  unfold handleDownloadPDF. rewrite Hreport. simpl.
  eexists. split; [reflexivity|].
  destruct Hflight as (Hk & Hgen & Hdown).
  split; [exact Htyped|]. split; [exact Hsteps|]. split.
  - unfold flightsTracked. simpl. split; [exact Hk|]. split; [exact Hgen|].
    apply Forall_app. split; [exact Hdown|].
    constructor; [|constructor]. simpl. split; [reflexivity|exact Hreport].
  - simpl. apply Forall_app. split; [exact Hcalls|].
    constructor; [|constructor]. exact Hreport.
Qed.

Lemma dispatch_generate_settles env σ n settled :
  sessionOK env σ ->
  exists σ', dispatch env (GenerateSettles n settled) σ = Normal σ'
             /\ sessionOK env σ'.
Proof.
  intros Hok.
  assert (Hsettle :
    exists σ',
      match generating σ !! n with
      | Some (_, _, k) =>
          Normal {| state := k settled (state σ);
                    generating := delete n (generating σ);
                    downloading := downloading σ; calls := calls σ |}
      | None => Normal σ
      end = Normal σ' /\ sessionOK env σ').
  { destruct (generating σ !! n) as [[[fd apiKey] k]|] eqn:Hn; [|unchanged σ Hok].
    eexists. split; [reflexivity|].
    destruct Hok as (Htyped & Hsteps & (Hk & Hgen & Hdown) & Hcalls).
    pose proof (proj1 (Forall_lookup _ _) Hk n _ Hn) as Hcont.
    simpl in Hcont. subst k.
    destruct (isGenerating (state σ)) eqn:Hbusy;
      [|rewrite Hgen in Hn; discriminate Hn].
    destruct Hgen as [Hone Hnone].
    assert (Hzero : n = 0%nat)
      by (apply lookup_lt_Some in Hn; lia).
    subst n.
    assert (Hempty : delete 0%nat (generating σ) = []).
    { destruct (generating σ) as [|g [|g' rest]]; [discriminate Hone|reflexivity|discriminate Hone]. }
    assert (Hform : formData (onGenerateSettled settled (state σ)) = formData (state σ))
      by (destruct settled as [report|[message|]]; reflexivity).
    assert (Hstep : currentStep (onGenerateSettled settled (state σ))
                    = currentStep (state σ))
      by (destruct settled as [report|[message|]]; reflexivity).
    split; [cbn [state]; rewrite Hform; exact Htyped|].
    split; [unfold stepsAnswered; cbn [state]; rewrite Hform, Hstep; exact Hsteps|].
    split.
    - unfold flightsTracked. cbn [state generating downloading]. rewrite Hempty.
      split; [constructor|].
      replace (isGenerating (onGenerateSettled settled (state σ))) with false
        by (destruct settled as [report|[message|]]; reflexivity).
      split; [reflexivity|].
      eapply Forall_impl; [exact Hdown|]. intros d [_ Hshown]. congruence.
    - cbn [state calls]. eapply Forall_impl; [exact Hcalls|].
      intros [fd' apiKey'|report]; simpl; [auto|congruence]. }
  on_screen σ Hok; exact Hsettle.
Qed.

Lemma dispatch_download_settles env σ n settled :
  sessionOK env σ ->
  exists σ', dispatch env (DownloadSettles n settled) σ = Normal σ'
             /\ sessionOK env σ'.
Proof.
  intros Hok.
  assert (Hsettle :
    exists σ',
      match downloading σ !! n with
      | Some (_, k) =>
          Normal {| state := k settled (state σ);
                    generating := generating σ;
                    downloading := delete n (downloading σ); calls := calls σ |}
      | None => Normal σ
      end = Normal σ' /\ sessionOK env σ').
  { destruct (downloading σ !! n) as [[report k]|] eqn:Hn; [|unchanged σ Hok].
    eexists. split; [reflexivity|].
    destruct Hok as (Htyped & Hsteps & (Hk & Hgen & Hdown) & Hcalls).
    pose proof (proj1 (Forall_lookup _ _) Hdown n _ Hn) as [Hcont _].
    simpl in Hcont. subst k.
    assert (Hsame : forall st,
              formData (onDownloadSettled settled st) = formData st
              /\ currentStep (onDownloadSettled settled st) = currentStep st
              /\ isGenerating (onDownloadSettled settled st) = isGenerating st
              /\ reportData (onDownloadSettled settled st) = reportData st)
      by (intros st; destruct settled as [done|reason]; repeat split).
    destruct (Hsame (state σ)) as (Hform & Hstep & Hbusy & Hshown).
    split; [cbn [state]; rewrite Hform; exact Htyped|].
    split; [unfold stepsAnswered; cbn [state]; rewrite Hform, Hstep; exact Hsteps|].
    split.
    - unfold flightsTracked. cbn [state generating downloading]. rewrite Hbusy, Hshown.
      split; [exact Hk|]. split; [exact Hgen|].
      apply Forall_delete. exact Hdown.
    - cbn [state calls]. eapply Forall_impl; [exact Hcalls|].
      intros [fd' apiKey'|report']; cbn [callOK]; [auto|congruence]. }
  on_screen σ Hok; exact Hsettle.
Qed.

Lemma dispatch_invariant env ev σ :
  sessionOK env σ ->
  exists σ', dispatch env ev σ = Normal σ' /\ sessionOK env σ'.
Proof.
  destruct ev as [value|value|parameter| | | | |n settled|n settled].
  - apply dispatch_select.
  - apply dispatch_location.
  - apply dispatch_toggle.
  - apply dispatch_previous.
  - apply dispatch_next.
  - apply dispatch_generate.
  - apply dispatch_download.
  - apply dispatch_generate_settles.
  - apply dispatch_download_settles.
Qed.

Lemma initialSession_OK env : sessionOK env (@initialSession ProcessedReport).
Proof.
  split; [exact initialFormData_typed|]. split; [|split].
  - split; simpl; [lia|]. split; intros Hstep; lia.
  - split; [constructor|]. split; [reflexivity|constructor].
  - constructor.
Qed.

Lemma dispatchAll_invariant env events : forall σ,
  sessionOK env σ ->
  exists σ', dispatchAll env events σ = Normal σ' /\ sessionOK env σ'.
Proof.
  induction events as [|ev events IH]; intros σ Hok; simpl.
  - exists σ. split; [reflexivity|exact Hok].
  - destruct (dispatch_invariant env ev σ Hok) as (σ1 & -> & Hok1).
    simpl. exact (IH σ1 Hok1).
Qed.

(** *** What holds all along a session *)

(** Whatever the user does and however the calls settle, the wizard
    does not throw: every sequence of events from the fresh wizard runs
    to its end, the step stays within the three screens, the form stays
    as [FormData] declares it, and the component renders. In particular
    [questions] is never read out of range. *)
Theorem wizard_never_throws env events :
  exists σ screen,
    dispatchAll env events (@initialSession ProcessedReport) = Normal σ
    /\ 0 <= currentStep (state σ) <= 2
    /\ formTyped (formData (state σ))
    /\ AIReports (state σ) = Normal screen.
Proof.
  destruct (dispatchAll_invariant env events _ (initialSession_OK env))
    as (σ & Hrun & Htyped & Hsteps & _).
  pose proof Hsteps as (Hbounds & _).
  exists σ.
  destruct (AIReports_cases (state σ) Htyped Hbounds)
    as [(report & _ & Hscreen)
       |[(question & _ & _ & _ & _ & Hscreen)|(d & _ & _ & _ & Hscreen)]];
    eexists; (split; [exact Hrun|]); (split; [exact Hbounds|]);
    (split; [exact Htyped|]); exact Hscreen.
Qed.

(** The wizard shows a screen only after the questions before it have
    been answered: past the first question the report type is a
    non-empty string, and on the details screen the period is too. *)
Theorem screens_follow_answers env events σ :
  dispatchAll env events initialSession = Normal σ ->
  (1 <= currentStep (state σ) -> answered (lit "reportType") (formData (state σ)))
  /\ (2 <= currentStep (state σ) -> answered (lit "period") (formData (state σ)))
  /\ (forall location selected,
        renderCurrentStep (state σ)
        = Normal (LocationAndParameters location selected) ->
        answered (lit "reportType") (formData (state σ))
        /\ answered (lit "period") (formData (state σ))).
Proof.
  intros Hrun.
  destruct (dispatchAll_invariant env events _ (initialSession_OK env))
    as (σ' & Hrun' & _ & (Hbounds & Hfirst & Hsecond) & _).
  rewrite Hrun in Hrun'. injection Hrun' as <-.
  split; [exact Hfirst|]. split; [exact Hsecond|].
  intros location selected Hview.
  assert (Hlast : currentStep (state σ) = 2).
  { unfold renderCurrentStep in Hview.
    destruct (reportData (state σ)); [discriminate Hview|].
    destruct (currentStep (state σ) =? Z.of_nat (length questions)) eqn:Hstep.
    - apply Z.eqb_eq in Hstep. exact Hstep.
    - destruct (questionAt (currentStep (state σ))); discriminate Hview. }
  split; [apply Hfirst|apply Hsecond]; lia.
Qed.

(** At most one report request is in flight at any time, and
    [isGenerating] is true exactly while one is. While one is there is
    no report yet, and a click on Generate does nothing: a second
    request cannot be issued before the first has settled. *)
Theorem one_request_in_flight env events σ :
  dispatchAll env events initialSession = Normal σ ->
  (length (generating σ) <= 1)%nat
  /\ (isGenerating (state σ) = true <-> length (generating σ) = 1%nat)
  /\ (isGenerating (state σ) = true ->
      reportData (state σ) = None
      /\ dispatch env ClickGenerate σ = Normal σ).
Proof.
  intros Hrun.
  destruct (dispatchAll_invariant env events _ (initialSession_OK env))
    as (σ' & Hrun' & Htyped & Hsteps & (_ & Hgen & _) & _).
  rewrite Hrun in Hrun'. injection Hrun' as <-.
  destruct (isGenerating (state σ)) eqn:Hbusy.
  - destruct Hgen as [Hone Hnone].
    split; [lia|]. split; [split; [intros _; exact Hone|reflexivity]|].
    intros _. split; [exact Hnone|].
    pose proof Hsteps as (Hbounds & _). unfold dispatch.
    destruct (AIReports_cases (state σ) Htyped Hbounds)
      as [(report & Hreport & ->)
         |[(question & _ & _ & _ & _ & ->)|(d & _ & _ & Hd & ->)]];
      simpl; try reflexivity.
    unfold generateDisabled in Hd. rewrite Hbusy in Hd. injection Hd as <-.
    reflexivity.
  - rewrite Hgen. simpl. split; [lia|].
    split; [split; intros H; discriminate H|]. intros H. discriminate H.
Qed.

(** Every report the wizard has asked for was asked for with a complete
    form: both questions answered, a location that is not blank, at
    least one parameter and no parameter twice; and with the configured
    key, or the empty string when none is configured. *)
Theorem generate_calls_are_ready env events σ fd apiKey :
  dispatchAll env events initialSession = Normal σ ->
  CallGenerateReport fd apiKey ∈ calls σ ->
  readyForm fd /\ apiKey = JS.orElse (VITE_PERPLEXITY_API_KEY env) [].
Proof.
  intros Hrun Hcall.
  destruct (dispatchAll_invariant env events _ (initialSession_OK env))
    as (σ' & Hrun' & _ & _ & _ & Hcalls).
  rewrite Hrun in Hrun'. injection Hrun' as <-.
  exact (proj1 (Forall_forall _ _) Hcalls _ Hcall).
Qed.

(** *** The result screen *)

Lemma result_step env ev σ shown :
  sessionOK env σ -> reportData (state σ) = Some shown ->
  exists σ',
    dispatch env ev σ = Normal σ'
    /\ (state σ' = state σ
        \/ state σ' = setError (Some (lit "Failed to download PDF")) (state σ)).
Proof.
  intros Hok Hshown. on_screen σ Hok; try congruence.
  destruct Hflight as (_ & Hgen & Hdown).
  assert (Hidle : generating σ = []).
  { destruct (isGenerating (state σ)); [|exact Hgen].
    destruct Hgen as [_ Hnone]. congruence. }
  destruct ev as [value|value|parameter| | | | |n settled|n settled];
    try (exists σ; split; [reflexivity|left; reflexivity]).
  - unfold handleDownloadPDF. rewrite Hreport. simpl.
    eexists. split; [reflexivity|]. left. reflexivity.
  - rewrite Hidle. simpl. exists σ. split; [reflexivity|left; reflexivity].
  - destruct (downloading σ !! n) as [[report' k]|] eqn:Hn;
      [|exists σ; split; [reflexivity|left; reflexivity]].
    pose proof (proj1 (Forall_lookup _ _) Hdown n _ Hn) as [Hcont _].
    simpl in Hcont. subst k.
    eexists. split; [reflexivity|]. simpl.
    destruct settled as [done|reason]; [left|right]; reflexivity.
Qed.

Lemma result_sequence env report more : forall σ,
  sessionOK env σ -> reportData (state σ) = Some report ->
  exists σ',
    dispatchAll env more σ = Normal σ'
    /\ sessionOK env σ'
    /\ reportData (state σ') = Some report
    /\ currentStep (state σ') = currentStep (state σ)
    /\ formData (state σ') = formData (state σ)
    /\ isGenerating (state σ') = isGenerating (state σ)
    /\ (error (state σ') = error (state σ)
        \/ error (state σ') = Some (lit "Failed to download PDF")).
Proof.
  induction more as [|ev more IH]; intros σ Hok Hshown; simpl.
  - exists σ. split; [reflexivity|]. split; [exact Hok|]. split; [exact Hshown|].
    split; [reflexivity|]. split; [reflexivity|]. split; [reflexivity|].
    left. reflexivity.
  - destruct (result_step env ev σ report Hok Hshown) as (σ1 & Hstep & Hstate).
    destruct (dispatch_invariant env ev σ Hok) as (σ1' & Hstep' & Hok1).
    rewrite Hstep in Hstep'. injection Hstep' as <-.
    rewrite Hstep. simpl.
    assert (Hshown1 : reportData (state σ1) = Some report)
      by (destruct Hstate as [-> | ->]; exact Hshown).
    destruct (IH σ1 Hok1 Hshown1)
      as (σ' & Hrun & Hok' & Hreport & Hsteps & Hform & Hbusy & Herror).
    exists σ'. split; [exact Hrun|]. split; [exact Hok'|].
    split; [exact Hreport|].
    destruct Hstate as [Hsame|Hfailed].
    + rewrite Hsame in *.
      split; [exact Hsteps|]. split; [exact Hform|]. split; [exact Hbusy|].
      exact Herror.
    + rewrite Hfailed in *. simpl in *.
      split; [exact Hsteps|]. split; [exact Hform|]. split; [exact Hbusy|].
      right. destruct Herror as [Herror|Herror]; assumption.
Qed.

(** Once the wizard has a report it keeps it. Whatever happens next,
    clicks, input, downloads and late settlements included, the report,
    the step, the form and [isGenerating] (false) stay what they are, no
    request for a report is in flight, and the report stays on screen.
    Only [error] can change, and only to 'Failed to download PDF': a
    message on the result screen is never dismissed. *)
Theorem report_is_final env events σ report more :
  dispatchAll env events initialSession = Normal σ ->
  reportData (state σ) = Some report ->
  exists σ',
    dispatchAll env more σ = Normal σ'
    /\ reportData (state σ') = Some report
    /\ renderCurrentStep (state σ') = Normal (ReportVisualization report)
    /\ currentStep (state σ') = currentStep (state σ)
    /\ formData (state σ') = formData (state σ)
    /\ isGenerating (state σ') = false
    /\ generating σ' = []
    /\ (error (state σ') = error (state σ)
        \/ error (state σ') = Some (lit "Failed to download PDF"))
    /\ (is_Some (error (state σ)) -> is_Some (error (state σ'))).
Proof.
  intros Hrun Hshown.
  destruct (dispatchAll_invariant env events _ (initialSession_OK env))
    as (σ0 & Hrun0 & Hok).
  rewrite Hrun in Hrun0. injection Hrun0 as <-.
  destruct (result_sequence env report more σ Hok Hshown)
    as (σ' & Hmore & Hok' & Hreport & Hsteps & Hform & Hbusy & Herror).
  exists σ'. split; [exact Hmore|]. split; [exact Hreport|].
  split; [apply renderCurrentStep_report; exact Hreport|].
  split; [exact Hsteps|]. split; [exact Hform|].
  destruct Hok' as (_ & _ & (_ & Hgen & _) & _).
  assert (Hidle : isGenerating (state σ') = false /\ generating σ' = []).
  { destruct (isGenerating (state σ')); [|split; [reflexivity|exact Hgen]].
    destruct Hgen as [_ Hnone]. congruence. }
  split; [apply Hidle|]. split; [apply Hidle|]. split; [exact Herror|].
  intros [message Hmessage].
  destruct Herror as [Herror|Herror]; rewrite Herror; [rewrite Hmessage|];
    eexists; reflexivity.
Qed.

(** *** The progress bar *)

Lemma progressWidth_value step :
  (progressWidth step == inject_Z (25 * (step + 1)))%Q.
Proof.
  unfold progressWidth, Qeq, Qmult, Qdiv, Qinv, inject_Z. simpl. lia.
Qed.

(** All along a session the progress bar is rendered exactly while
    there is no report, and its width is 25, 50 or 75 percent, by the
    step: 25 percent more with each screen, and full at no screen. *)
Theorem progress_bar_widths env events σ screen :
  dispatchAll env events initialSession = Normal σ ->
  AIReports (state σ) = Normal screen ->
  match reportData (state σ) with
  | Some _ => progress screen = None
  | None =>
      exists width,
        progress screen = Some width
        /\ (width == inject_Z (25 * (currentStep (state σ) + 1)))%Q
        /\ ((width == 25)%Q \/ (width == 50)%Q \/ (width == 75)%Q)
  end.
Proof.
  intros Hrun Hscreen.
  destruct (dispatchAll_invariant env events _ (initialSession_OK env))
    as (σ' & Hrun' & Htyped & (Hbounds & _) & _).
  rewrite Hrun in Hrun'. injection Hrun' as <-.
  assert (Hprogress : progress screen
                      = match reportData (state σ) with
                        | Some _ => None
                        | None => Some (progressWidth (currentStep (state σ)))
                        end).
  { destruct (AIReports_cases (state σ) Htyped Hbounds)
      as [(report & Hreport & Heq)
         |[(question & Hnone & _ & _ & _ & Heq)|(d & Hnone & _ & _ & Heq)]];
      rewrite Heq in Hscreen; injection Hscreen as <-; simpl;
      rewrite ?Hreport, ?Hnone; reflexivity. }
  destruct (reportData (state σ)); [exact Hprogress|].
  eexists. split; [exact Hprogress|]. split; [apply progressWidth_value|].
  assert (Hstep : currentStep (state σ) = 0 \/ currentStep (state σ) = 1
                  \/ currentStep (state σ) = 2) by lia.
  destruct Hstep as [-> |[-> | ->]]; [left|right; left|right; right]; reflexivity.
Qed.


(** *** Errors along a session *)

Lemma errors_generate_settles σ σ' n settled :
  flightsTracked σ -> errorsTracked (state σ) ->
  match generating σ !! n with
  | Some (_, _, k) =>
      Normal {| state := k settled (state σ);
                generating := delete n (generating σ);
                downloading := downloading σ; calls := calls σ |}
  | None => Normal σ
  end = Normal σ' ->
  errorsTracked (state σ').
Proof.
  intros (Hk & Hgen & _) [Hquiet Hshown].
  destruct (generating σ !! n) as [[[fd apiKey] k]|] eqn:Hn;
    [|intros Hstep; injection Hstep as <-; split; assumption].
  pose proof (proj1 (Forall_lookup _ _) Hk n _ Hn) as Hcont.
  simpl in Hcont. subst k. intros Hstep. injection Hstep as <-.
  destruct (isGenerating (state σ)) eqn:Hbusy;
    [|rewrite Hgen in Hn; discriminate Hn].
  destruct Hgen as [_ Hnone]. specialize (Hquiet eq_refl).
  cbn [state]. split.
  - destruct settled as [report|[message|]]; discriminate.
  - destruct settled as [report|[message|]]; simpl.
    + intros _. left. exact Hquiet.
    + intros [r Hr]. congruence.
    + intros [r Hr]. congruence.
Qed.

Lemma errors_download_settles σ σ' n settled :
  flightsTracked σ -> errorsTracked (state σ) ->
  match downloading σ !! n with
  | Some (_, k) =>
      Normal {| state := k settled (state σ);
                generating := generating σ;
                downloading := delete n (downloading σ); calls := calls σ |}
  | None => Normal σ
  end = Normal σ' ->
  errorsTracked (state σ').
Proof.
  intros (_ & Hgen & Hdown) [Hquiet Hshown].
  destruct (downloading σ !! n) as [[shown k]|] eqn:Hn;
    [|intros Hstep; injection Hstep as <-; split; assumption].
  pose proof (proj1 (Forall_lookup _ _) Hdown n _ Hn) as [Hcont Hreport].
  simpl in Hcont, Hreport. subst k. intros Hstep. injection Hstep as <-.
  cbn [state]. destruct settled as [done|reason]; [split; assumption|].
  split; simpl; [|intros _; right; reflexivity].
  intros Hbusy. rewrite Hbusy in Hgen. destruct Hgen as [_ Hnone]. congruence.
Qed.

Lemma errors_click (f : Z -> Z) (off : bool) s :
  errorsTracked s ->
  errorsTracked (click {| onClick := setCurrentStep f; disabled := off |} s).
Proof. intros Herrors. unfold click. simpl. destruct off; exact Herrors. Qed.

Lemma errors_step env ev σ σ' :
  sessionOK env σ -> errorsTracked (state σ) ->
  dispatch env ev σ = Normal σ' -> errorsTracked (state σ').
Proof.
  intros Hok Herrors. on_screen σ Hok;
    destruct ev as [value|value|parameter| | | | |n settled|n settled];
    simpl; intros Hstep;
    try (injection Hstep as <-; exact Herrors);
    try (injection Hstep as <-; split; simpl; [reflexivity|left; reflexivity]);
    try (injection Hstep as <-; apply errors_click; exact Herrors);
    try (exact (errors_generate_settles σ σ' n settled Hflight Herrors Hstep));
    try (exact (errors_download_settles σ σ' n settled Hflight Herrors Hstep)).
  - (* a download is started on the result screen *)
    revert Hstep. unfold handleDownloadPDF. rewrite Hreport. simpl.
    intros Hstep. injection Hstep as <-. exact Herrors.
  - (* a checkbox is toggled on the details screen *)
    revert Hstep. rewrite handleParameterToggle_eq.
    destruct (toggledParameters parameter (formData (state σ) !! lit "parameters"));
      simpl; intros Hstep; [|discriminate Hstep].
    injection Hstep as <-. split; simpl; [reflexivity|left; reflexivity].
  - (* Generate is clicked on the details screen *)
    destruct d; [injection Hstep as <-; exact Herrors|].
    destruct (enabled_generate_issues_call env (state σ) Hd) as (_ & _ & _ & Hcall).
    rewrite Hcall in Hstep. injection Hstep as <-. simpl.
    split; [reflexivity|]. intros [r Hr]. simpl in Hr. congruence.
Qed.

Lemma errors_sequence env events : forall σ σ',
  sessionOK env σ -> errorsTracked (state σ) ->
  dispatchAll env events σ = Normal σ' -> errorsTracked (state σ').
Proof.
  induction events as [|ev events IH]; intros σ σ' Hok Herrors; simpl.
  - intros Hrun. injection Hrun as <-. exact Herrors.
  - destruct (dispatch_invariant env ev σ Hok) as (σ1 & Hstep & Hok1).
    rewrite Hstep. simpl. apply (IH σ1 σ' Hok1).
    exact (errors_step env ev σ σ1 Hok Herrors Hstep).
Qed.

(** No error is shown while a report is being generated, and the result
    screen shows none but 'Failed to download PDF': the report arrives
    with the banner off, and a message of the Report Service can only be
    on a question or details screen with no request in flight. *)
Theorem errors_on_screen env events σ :
  dispatchAll env events initialSession = Normal σ ->
  (isGenerating (state σ) = true ->
   error (state σ) = None /\ errorBanner (state σ) = None)
  /\ (forall report, reportData (state σ) = Some report ->
      error (state σ) = None
      \/ error (state σ) = Some (lit "Failed to download PDF")).
Proof.
  intros Hrun.
  assert (Herrors : errorsTracked (state σ)).
  { apply (errors_sequence env events initialSession σ (initialSession_OK env));
      [|exact Hrun].
    split; [reflexivity|]. intros [r Hr]. discriminate Hr. }
  destruct Herrors as [Hquiet Hshown]. split.
  - intros Hbusy. specialize (Hquiet Hbusy). split; [exact Hquiet|].
    unfold errorBanner. rewrite Hquiet. reflexivity.
  - intros report Hreport. apply Hshown. eexists. exact Hreport.
Qed.

(** *** The location as typed, and retrying *)

(** The location is stored as typed, white space around it included,
    and that is what is shown back and what the Report Service gets:
    [trim] only serves the blank test. *)
Theorem location_is_kept_verbatim env s (value : jsstring) :
  exists s',
    handleLocationChange value s = Normal s'
    /\ formData s' !! lit "location" = Some (VStr value)
    /\ (forall key, key ≠ lit "location" -> formData s' !! key = formData s !! key)
    /\ (reportData s = None -> currentStep s = 2 ->
        exists selected,
          renderCurrentStep s'
          = Normal (LocationAndParameters (Some (VStr value)) selected))
    /\ (JS.trim value ≠ [] ->
        exists pending fd apiKey k,
          handleGenerateReport env s' = AwaitGenerateReport pending fd apiKey k
          /\ fd !! lit "location" = Some (VStr value)).
Proof.
  rewrite handleLocationChange_eq. eexists. split; [reflexivity|].
  split; [apply lookup_insert_eq|].
  split; [intros key Hkey; simpl; apply lookup_insert_ne; congruence|].
  split.
  - intros Hnone Hlast. unfold renderCurrentStep.
    cbn [reportData currentStep formData setError withFormData].
    rewrite Hnone, Hlast, lookup_insert_eq. eexists. reflexivity.
  - intros Hnonblank.
    edestruct (handleGenerateReport_suspends env
                 (setError None
                    (withFormData (<[lit "location" := VStr value]> (formData s)) s))
                 value) as (k & Hcall & _).
    + apply lookup_insert_eq.
    + exact Hnonblank.
    + rewrite Hcall. do 4 eexists. split; [reflexivity|]. apply lookup_insert_eq.
Qed.


End Properties.

(** ** Scenarios *)

Example trim_examples :
  JS.trim (lit "  Jaipur ") = lit "Jaipur"
  /\ JS.trim (lit "   ") = []
  /\ JS.trim [0x3000%N; 0xFEFF%N; 0x0009%N] = []
  /\ JS.stringIncludes (lit "pH Level") (lit "pH") = true
  /\ JS.stringIncludes (lit "aa") (lit "x") = false
  /\ JS.stringIterator (lit "aa") = [lit "a"; lit "a"].
Proof. vm_compute. repeat split. Qed.

(** Scenario A: answering both questions and pressing Next twice leads
    to the details screen. *)
Example scenario_A :
  (s1 ← handleOptionSelect (lit "reportType") (lit "Water Quality Assessment")
          (@initialState string);
   s2 ← clickNext s1;
   s3 ← handleOptionSelect (lit "period") (lit "Last 1 year") s2;
   s4 ← clickNext s3;
   renderCurrentStep s4)
  = Normal (LocationAndParameters (Some (VStr [])) (Some (VArr []))).
Proof. vm_compute. reflexivity. Qed.

(** Next is disabled until the question on screen is answered. *)
Example next_is_gated :
  clickNext (@initialState string) = Normal initialState.
Proof. vm_compute. reflexivity. Qed.

(** Scenario C: with a location and no parameter selected the Generate
    button is disabled; it is enabled once one is selected, and disabled
    again while a request is in flight. *)
Example scenario_C :
  generateDisabled (detailsState (lit "Jaipur") (VArr [])) = Normal true
  /\ generateDisabled (detailsState (lit "Jaipur") (VArr [lit "pH Level"]))
     = Normal false
  /\ generateDisabled (detailsState (lit "  ") (VArr [lit "pH Level"]))
     = Normal true
  /\ generateDisabled inFlightBlank = Normal true.
Proof. vm_compute. repeat split. Qed.

Lemma inFlightBlank_reachable : reachable sampleEnv inFlightBlank.
Proof.
  pose proof (reach_initial (ProcessedReport := string) sampleEnv) as H.
  assert (Hq1 : {| id := lit "reportType";
                   text := lit "What type of report do you need?";
                   options := [ lit "Groundwater Level Analysis";
                                lit "Water Quality Assessment";
                                lit "Aquifer Characterization";
                                lit "Sustainability Analysis" ] |} ∈ questions)
    by (unfold questions; apply elem_of_cons; left; reflexivity).
  assert (Hq2 : {| id := lit "period";
                   text := lit "Select the time period for analysis";
                   options := [ lit "Last 6 months"; lit "Last 1 year";
                                lit "Last 5 years"; lit "Last 10 years" ] |} ∈ questions)
    by (unfold questions; apply elem_of_cons; right; apply elem_of_cons; left; reflexivity).
  pose proof (reach_option sampleEnv _ _ (lit "Water Quality Assessment") _ H Hq1 eq_refl) as H1.
  pose proof (reach_next sampleEnv _ H1) as H2.
  pose proof (reach_option sampleEnv _ _ (lit "Last 1 year") _ H2 Hq2 eq_refl) as H3.
  pose proof (reach_next sampleEnv _ H3) as H4.
  pose proof (reach_location sampleEnv _ (lit "Jaipur") _ H4 eq_refl) as H5.
  assert (H6 : reachable sampleEnv (detailsState (lit "Jaipur") (VArr [lit "pH Level"]))).
  { apply (reach_toggle sampleEnv _ (lit "pH Level") _ H5).
    vm_compute. reflexivity. }
  assert (H7 : reachable sampleEnv
                 (setError None (setIsGenerating true
                    (detailsState (lit "Jaipur") (VArr [lit "pH Level"]))))).
  { eapply (reach_generate_pending sampleEnv _ _ _ _ _ H6).
    vm_compute. reflexivity. }
  apply (reach_location sampleEnv _ [] _ H7).
  vm_compute. reflexivity.
Qed.

(** Scenario B: a blank location on the details screen. *)
Lemma scenario_B :
  formData (detailsState [] (VArr [lit "pH Level"])) !! lit "location"
  = Some (VStr [])
  /\ JS.trim [] = []
  /\ exists s',
       run resolving
         (handleGenerateReport sampleEnv (detailsState [] (VArr [lit "pH Level"])))
       = (Normal s', [])
       /\ error s' = Some (lit "Please enter a location")
       /\ isGenerating s' = false.
Proof.
  assert (Hloc : formData (detailsState [] (VArr [lit "pH Level"])) !! lit "location"
                 = Some (VStr [])) by (vm_compute; reflexivity).
  split; [exact Hloc|]. split; [reflexivity|].
  destruct (generate_blank_location resolving sampleEnv
              (detailsState [] (VArr [lit "pH Level"])) [] Hloc eq_refl)
    as (s' & Hrun & Herror & _ & Hidle & _).
  exists s'. split; [exact Hrun|]. split; [exact Herror|].
  apply Hidle. reflexivity.
Defined.

(** The blank branch does not lower [isGenerating]: called while a
    request is in flight, on a form whose location has been emptied, it
    leaves [isGenerating] true. *)
Lemma generate_blank_in_flight :
  reachable sampleEnv inFlightBlank
  /\ formData inFlightBlank !! lit "location" = Some (VStr [])
  /\ JS.trim [] = []
  /\ run resolving (handleGenerateReport sampleEnv inFlightBlank)
     = (Normal (setError (Some (lit "Please enter a location")) inFlightBlank), [])
  /\ isGenerating (setError (Some (lit "Please enter a location")) inFlightBlank)
     = true.
Proof.
  split; [exact inFlightBlank_reachable|].
  split; [vm_compute; reflexivity|].
  split; [reflexivity|].
  split; [vm_compute; reflexivity|reflexivity].
Qed.

(** Scenario D: the Report Service resolves. *)
Lemma scenario_D :
  exists s',
    run resolving
      (handleGenerateReport sampleEnv
         (detailsState (lit "Jaipur") (VArr [lit "pH Level"; lit "Fluoride Level"])))
    = (Normal s',
       [CallGenerateReport
          (detailsForm (lit "Jaipur") (VArr [lit "pH Level"; lit "Fluoride Level"]))
          (lit "pplx-0000")])
    /\ reportData s' = Some "Groundwater report"%string
    /\ isGenerating s' = false
    /\ error s' = None.
Proof.
  destruct (generate_success resolving sampleEnv
              (detailsState (lit "Jaipur") (VArr [lit "pH Level"; lit "Fluoride Level"]))
              (lit "Jaipur") "Groundwater report"%string)
    as (s' & Hrun & Hreport & Hidle & Herror & _).
  - vm_compute. reflexivity.
  - vm_compute. discriminate.
  - reflexivity.
  - exists s'. repeat split; assumption.
Defined.

(** Scenario E: the Report Service rejects with 'rate limited'. *)
Lemma scenario_E :
  exists s',
    run rejecting
      (handleGenerateReport sampleEnv
         (detailsState (lit "Jaipur") (VArr [lit "pH Level"; lit "Fluoride Level"])))
    = (Normal s',
       [CallGenerateReport
          (detailsForm (lit "Jaipur") (VArr [lit "pH Level"; lit "Fluoride Level"]))
          (lit "pplx-0000")])
    /\ error s' = Some (lit "rate limited")
    /\ reportData s' = None
    /\ isGenerating s' = false.
Proof.
  destruct (generate_failure rejecting sampleEnv
              (detailsState (lit "Jaipur") (VArr [lit "pH Level"; lit "Fluoride Level"]))
              (lit "Jaipur") (ThrownError (lit "rate limited")))
    as (s' & Hrun & Herror & _ & Hunset & Hidle & _).
  - vm_compute. reflexivity.
  - vm_compute. discriminate.
  - reflexivity.
  - exists s'. split; [exact Hrun|]. split; [exact Herror|].
    split; [apply Hunset; reflexivity|exact Hidle].
Defined.

(** The handler tests [instanceof Error], not whether the failure
    carries a message: an [Error] without a message leaves the empty
    string in [error], not the fallback, and a rejection with an object
    that has a message gets the fallback, not that message. *)
Lemma generate_failure_follows_instanceof :
  (exists s',
     fst (run rejectingSilently
            (handleGenerateReport sampleEnv
               (detailsState (lit "Jaipur") (VArr [lit "pH Level"]))))
     = Normal s'
     /\ error s' = Some []
     /\ error s' ≠ Some (lit "Failed to generate report"))
  /\ (exists s',
        fst (run rejectingWithObject
               (handleGenerateReport sampleEnv
                  (detailsState (lit "Jaipur") (VArr [lit "pH Level"]))))
        = Normal s'
        /\ error s' = Some (lit "Failed to generate report")
        /\ error s' ≠ Some (lit "rate limited")).
Proof.
  split.
  - eexists. split; [vm_compute; reflexivity|].
    split; [reflexivity|]. vm_compute. discriminate.
  - eexists. split; [vm_compute; reflexivity|].
    split; [reflexivity|]. vm_compute. discriminate.
Qed.

(** A download that fails on the result screen. *)
Lemma download_failure_on_result :
  exists s',
    run rejecting (handleDownloadPDF resultState)
    = (Normal s', [CallDownloadReportAsPDF "Groundwater report"%string])
    /\ s' = resultStateWithError.
Proof.
  destruct (download_failure rejecting resultState "Groundwater report"%string
              (ThrownError (lit "canvas is empty")) eq_refl eq_refl)
    as (s' & Hrun & Herror & Hreport & Hstep & Hidle & Hform).
  exists s'. split; [exact Hrun|].
  destruct s' as [step generating err rep form]. simpl in *.
  subst. reflexivity.
Defined.

(** On the result screen, edits and step changes keep the report on
    screen. *)
Lemma result_view_after_edits :
  reportData resultState = Some "Groundwater report"%string
  /\ exists s',
       performAll [ SelectOption (lit "reportType") (lit "Aquifer Characterization");
                    ToggleParameter (lit "pH Level");
                    Previous; Previous; Previous; Next ] resultState
       = Normal s'
       /\ reportData s' = Some "Groundwater report"%string
       /\ renderCurrentStep s' = Normal (ReportVisualization "Groundwater report"%string).
Proof.
  split; [reflexivity|].
  destruct (result_view_is_terminal resultState "Groundwater report"%string eq_refl)
    as (_ & _ & Hcompletes).
  apply (Hcompletes _ [lit "pH Level"; lit "Fluoride Level"]).
  - vm_compute. reflexivity.
  - repeat constructor. intros Hkey. vm_compute in Hkey. discriminate Hkey.
Defined.

(** On the result screen, an option call under the key 'parameters'
    followed by a toggle of a substring of the value throws: the
    sequence reaches no state, and no view is selected after it. *)
Lemma result_view_lost :
  reportData resultState = Some "Groundwater report"%string
  /\ parametersList resultState = Some [lit "pH Level"; lit "Fluoride Level"]
  /\ performAll [ SelectOption (lit "parameters") (lit "pH Level");
                  ToggleParameter (lit "pH") ] resultState
     = Throw TypeError
  /\ (s ← performAll [ SelectOption (lit "parameters") (lit "pH Level");
                        ToggleParameter (lit "pH") ] resultState;
      renderCurrentStep s)
     ≠ Normal (ReportVisualization "Groundwater report"%string).
Proof.
  split; [reflexivity|].
  split; [vm_compute; reflexivity|].
  split; [vm_compute; reflexivity|].
  vm_compute. discriminate.
Qed.

(** Editing after a failed download clears the message. *)
Lemma edits_clear_download_error :
  error resultStateWithError = Some (lit "Failed to download PDF")
  /\ (exists s', handleOptionSelect (lit "period") (lit "Last 5 years") resultStateWithError
                 = Normal s' /\ error s' = None)
  /\ (exists s', handleLocationChange (lit "Jodhpur") resultStateWithError
                 = Normal s' /\ error s' = None)
  /\ (exists s', handleParameterToggle (lit "Recharge Rate") resultStateWithError
                 = Normal s' /\ error s' = None).
Proof.
  destruct (edits_clear_error resultStateWithError)
    as (Hoption & Hlocation & Htoggle & _).
  split; [reflexivity|].
  split; [apply Hoption|]. split; [apply Hlocation|].
  apply (Htoggle _ [lit "pH Level"; lit "Fluoride Level"]).
  vm_compute. reflexivity.
Defined.

(** With a string under 'parameters', which an option call puts there,
    and an error shown, which a blank location gives, a toggle of a
    substring of that string throws: the error is not cleared. *)
Lemma toggle_throws_on_string_parameters :
  (s1 ← handleOptionSelect (lit "parameters") (lit "pH Level") (@initialState string);
   fst (run resolving (handleGenerateReport sampleEnv s1)))
  = Normal stringParametersWithError
  /\ error stringParametersWithError = Some (lit "Please enter a location")
  /\ handleParameterToggle (lit "pH") stringParametersWithError = Throw TypeError.
Proof.
  split; [vm_compute; reflexivity|].
  split; [reflexivity|].
  vm_compute. reflexivity.
Qed.

(** Toggling twice a name that is absent, and one that is present. *)
Lemma toggle_twice_on_details :
  parametersList (detailsState (lit "Jaipur") (VArr [lit "pH Level"; lit "Fluoride Level"]))
  = Some [lit "pH Level"; lit "Fluoride Level"]
  /\ exists s1 s2,
       handleParameterToggle (lit "Recharge Rate")
         (detailsState (lit "Jaipur") (VArr [lit "pH Level"; lit "Fluoride Level"]))
       = Normal s1
       /\ handleParameterToggle (lit "Recharge Rate") s1 = Normal s2
       /\ parametersList s2 = Some [lit "pH Level"; lit "Fluoride Level"].
Proof.
  assert (Ha : parametersList
                 (detailsState (lit "Jaipur") (VArr [lit "pH Level"; lit "Fluoride Level"]))
               = Some [lit "pH Level"; lit "Fluoride Level"])
    by (vm_compute; reflexivity).
  split; [exact Ha|].
  destruct (toggle_twice (lit "Recharge Rate") _ _ Ha)
    as (s1 & s2 & a2 & H1 & H2 & Ha2 & _ & Habsent & _).
  exists s1, s2. split; [exact H1|]. split; [exact H2|].
  rewrite Ha2. f_equal. apply Habsent.
  intros Hin. vm_compute in Hin.
  apply elem_of_cons in Hin as [Heq|Hin]; [discriminate Heq|].
  apply elem_of_cons in Hin as [Heq|Hin]; [discriminate Heq|].
  inversion Hin.
Defined.

(** Toggling twice a name that is selected, and not last, does not give
    the list back: the name has moved to the end. A string under
    'parameters' does not come back either. *)
Lemma toggle_twice_reorders :
  (s1 ← handleParameterToggle (lit "pH Level")
          (detailsState (lit "Jaipur") (VArr [lit "pH Level"; lit "Fluoride Level"]));
   s2 ← handleParameterToggle (lit "pH Level") s1;
   Normal (formData s2 !! lit "parameters"))
  = Normal (Some (VArr [lit "Fluoride Level"; lit "pH Level"]))
  /\ VArr [lit "Fluoride Level"; lit "pH Level"]
     ≠ VArr [lit "pH Level"; lit "Fluoride Level"]
  /\ (s1 ← handleParameterToggle (lit "x")
             (detailsState (lit "Jaipur") (VStr (lit "ab")));
      s2 ← handleParameterToggle (lit "x") s1;
      Normal (formData s2 !! lit "parameters"))
     = Normal (Some (VArr [lit "a"; lit "b"]))
  /\ VArr [lit "a"; lit "b"] ≠ VStr (lit "ab").
Proof.
  split; [vm_compute; reflexivity|].
  split; [vm_compute; discriminate|].
  split; [vm_compute; reflexivity|].
  discriminate.
Qed.

(** Previous on the first question. *)
Lemma previous_on_first_question :
  currentStep (@initialState string) = 0
  /\ clickPrevious (@initialState string) = initialState.
Proof.
  split; [reflexivity|].
  apply (previous_at_first_step (@initialState string)). reflexivity.
Defined.

(** The in-flight state above is reachable, so its parameters are
    distinct. *)
Lemma reachable_parameters_distinct :
  reachable sampleEnv inFlightBlank
  /\ exists a, parametersList inFlightBlank = Some a /\ NoDup a.
Proof.
  split; [exact inFlightBlank_reachable|].
  destruct (parameters_stay_distinct (ProcessedReport := string) sampleEnv)
    as (Hreachable & _).
  apply Hreachable. exact inFlightBlank_reachable.
Defined.

(** From the initial state, an option call under the key 'parameters'
    modifies the field, and the toggle that follows spreads the string
    into its characters: the list reached has a duplicate. *)
Lemma option_call_breaks_distinctness :
  (exists s1,
     handleOptionSelect (lit "parameters") (lit "aa") (@initialState string)
     = Normal s1
     /\ formData s1 !! lit "parameters" = Some (VStr (lit "aa"))
     /\ formData s1 !! lit "parameters"
        ≠ formData (@initialState string) !! lit "parameters")
  /\ (exists s2,
        performAll [ SelectOption (lit "parameters") (lit "aa");
                     ToggleParameter (lit "x") ] (@initialState string)
        = Normal s2
        /\ parametersList s2 = Some [lit "a"; lit "a"; lit "x"])
  /\ ~ NoDup [lit "a"; lit "a"; lit "x"].
Proof.
  split; [|split].
  - eexists. split; [reflexivity|].
    split; [vm_compute; reflexivity|vm_compute; discriminate].
  - eexists. split; [vm_compute; reflexivity|]. vm_compute. reflexivity.
  - intros Hnodup. apply NoDup_cons in Hnodup as [Hfresh _].
    apply Hfresh. apply elem_of_cons. left. reflexivity.
Qed.

(** An option call with a key that is no question identifier. *)
Lemma option_call_creates_field :
  formData (@initialState string) !! lit "district" = None
  /\ exists s',
       handleOptionSelect (lit "district") (lit "Jaipur") (@initialState string)
       = Normal s'
       /\ formData s' !! lit "district" = Some (VStr (lit "Jaipur"))
       /\ formData s' !! lit "parameters" = Some (VArr []).
Proof.
  split; [vm_compute; reflexivity|].
  destruct (select_option_writes_any_key (lit "district") (lit "Jaipur")
              (@initialState string))
    as (s' & Hrun & _ & Hwritten & Hothers & _).
  exists s'. split; [exact Hrun|]. split; [exact Hwritten|].
  rewrite Hothers; [vm_compute; reflexivity|].
  intros Hkey. vm_compute in Hkey. discriminate Hkey.
Defined.

(** The toggle, the generate handler and the Generate button in the
    in-flight state. *)
Lemma in_flight_handlers_complete :
  reachable sampleEnv inFlightBlank
  /\ (exists s', handleParameterToggle (lit "Recharge Rate") inFlightBlank = Normal s')
  /\ generateDisabled inFlightBlank = Normal true.
Proof.
  split; [exact inFlightBlank_reachable|].
  destruct (handlers_complete_when_reachable sampleEnv inFlightBlank
              inFlightBlank_reachable) as (Htoggle & _ & _).
  split; [apply Htoggle|]. vm_compute. reflexivity.
Defined.

(** ** Sessions *)

(** A location of spaces and a tab is rejected without a call. *)
Lemma whitespace_location_rejected :
  formData (detailsState (lit "  	 ") (VArr [lit "pH Level"])) !! lit "location"
  = Some (VStr (lit "  	 "))
  /\ exists s',
       handleGenerateReport sampleEnv
         (detailsState (lit "  	 ") (VArr [lit "pH Level"]))
       = Done s'.
Proof.
  assert (Hloc : formData (detailsState (lit "  	 ") (VArr [lit "pH Level"]))
                   !! lit "location" = Some (VStr (lit "  	 ")))
    by (vm_compute; reflexivity).
  split; [exact Hloc|].
  destruct (validation_rejects_exactly_whitespace sampleEnv _ _ Hloc)
    as [_ [_ Hreject]].
  apply Hreject. vm_compute. repeat constructor.
Defined.

(** With a location and a parameter the button is enabled and a click
    issues the call. *)
Lemma enabled_generate_on_details :
  generateDisabled (detailsState (lit "Jaipur") (VArr [lit "pH Level"]))
  = Normal false
  /\ exists pending fd apiKey k,
       handleGenerateReport sampleEnv
         (detailsState (lit "Jaipur") (VArr [lit "pH Level"]))
       = AwaitGenerateReport pending fd apiKey k
       /\ isGenerating pending = true.
Proof.
  assert (Henabled : generateDisabled
                       (detailsState (lit "Jaipur") (VArr [lit "pH Level"]))
                     = Normal false) by (vm_compute; reflexivity).
  split; [exact Henabled|].
  destruct (enabled_generate_issues_call sampleEnv _ Henabled)
    as (_ & _ & _ & Hcall).
  rewrite Hcall. do 4 eexists. split; reflexivity.
Defined.

(** Answering the first question of the fresh wizard. *)
Lemma first_answer_is_shown :
  exists question,
    renderCurrentStep (@initialState string)
    = Normal (ReportQuestion question (Some (VStr [])))
    /\ exists s',
         handleOptionSelect (id question) (lit "Aquifer Characterization")
           (@initialState string)
         = Normal s'
         /\ renderCurrentStep s'
            = Normal (ReportQuestion question
                        (Some (VStr (lit "Aquifer Characterization")))).
Proof.
  eexists. split; [vm_compute; reflexivity|].
  destruct (selected_answer_is_shown (@initialState string) _ _
              (lit "Aquifer Characterization") eq_refl)
    as (s' & Hselect & Hview & _).
  exists s'. split; [exact Hselect|exact Hview].
Defined.

(** Deselecting one of two parameters. *)
Lemma deselecting_a_parameter :
  parametersList resultState = Some [lit "pH Level"; lit "Fluoride Level"]
  /\ exists s' a',
       handleParameterToggle (lit "pH Level") resultState = Normal s'
       /\ parametersList s' = Some a'
       /\ length [lit "pH Level"; lit "Fluoride Level"] = S (length a').
Proof.
  assert (Ha : parametersList resultState
               = Some [lit "pH Level"; lit "Fluoride Level"])
    by (vm_compute; reflexivity).
  split; [exact Ha|].
  destruct (toggle_flips_membership (lit "pH Level") resultState _ Ha)
    as (s' & a' & Htoggle & Ha' & _ & _ & _ & _ & Hlength).
  exists s', a'. split; [exact Htoggle|]. split; [exact Ha'|].
  apply Hlength.
  - apply NoDup_cons. split; [|apply NoDup_singleton].
    intros Hin. apply list_elem_of_singleton in Hin.
    vm_compute in Hin. discriminate Hin.
  - apply elem_of_cons. left. reflexivity.
Defined.

(** A rejection without a message shows nothing. *)
Lemma silent_failure_on_details :
  exists s',
    fst (run rejectingSilently
           (handleGenerateReport sampleEnv
              (detailsState (lit "Jaipur") (VArr [lit "pH Level"]))))
    = Normal s'
    /\ error s' = Some []
    /\ errorBanner s' = None.
Proof.
  destruct (empty_message_failure_is_silent rejectingSilently sampleEnv
              (detailsState (lit "Jaipur") (VArr [lit "pH Level"])) (lit "Jaipur"))
    as (_ & s' & Hrun & Herror & Hbanner & _).
  - vm_compute. reflexivity.
  - vm_compute. discriminate.
  - reflexivity.
  - exists s'. split; [exact Hrun|]. split; assumption.
Defined.

(** The sample session on its way: the details screen after two
    answers, one request in flight after the click, the report at the
    end. *)
Lemma details_after_two_answers :
  exists σ,
    dispatchAll sampleEnv eventsToDetails initialSession = Normal σ
    /\ currentStep (state σ) = 2
    /\ answered (lit "reportType") (formData (state σ))
    /\ answered (lit "period") (formData (state σ)).
Proof.
  destruct (dispatchAll sampleEnv eventsToDetails initialSession) as [σ|e] eqn:Hrun;
    [|vm_compute in Hrun; discriminate Hrun].
  assert (Hlast : currentStep (state σ) = 2)
    by (vm_compute in Hrun; injection Hrun as <-; reflexivity).
  exists σ. split; [reflexivity|]. split; [exact Hlast|].
  destruct (screens_follow_answers sampleEnv eventsToDetails σ Hrun)
    as (Hfirst & Hsecond & _).
  split; [apply Hfirst|apply Hsecond]; rewrite Hlast; discriminate.
Defined.

Lemma one_request_after_click :
  exists σ,
    dispatchAll sampleEnv eventsInFlight initialSession = Normal σ
    /\ isGenerating (state σ) = true
    /\ length (generating σ) = 1%nat
    /\ dispatch sampleEnv ClickGenerate σ = Normal σ.
Proof.
  destruct (dispatchAll sampleEnv eventsInFlight initialSession) as [σ|e] eqn:Hrun;
    [|vm_compute in Hrun; discriminate Hrun].
  assert (Hbusy : isGenerating (state σ) = true)
    by (vm_compute in Hrun; injection Hrun as <-; reflexivity).
  exists σ. split; [reflexivity|]. split; [exact Hbusy|].
  destruct (one_request_in_flight sampleEnv eventsInFlight σ Hrun)
    as (_ & Hone & Hgated).
  split; [apply Hone; exact Hbusy|]. apply Hgated. exact Hbusy.
Defined.

Lemma the_call_of_the_sample_session :
  exists σ,
    dispatchAll sampleEnv eventsToResult initialSession = Normal σ
    /\ calls σ
       = [CallGenerateReport (detailsForm (lit "Jaipur") (VArr [lit "pH Level"]))
            (lit "pplx-0000")]
    /\ readyForm (detailsForm (lit "Jaipur") (VArr [lit "pH Level"])).
Proof.
  destruct (dispatchAll sampleEnv eventsToResult initialSession) as [σ|e] eqn:Hrun;
    [|vm_compute in Hrun; discriminate Hrun].
  assert (Hcalls : calls σ
                   = [CallGenerateReport
                        (detailsForm (lit "Jaipur") (VArr [lit "pH Level"]))
                        (lit "pplx-0000")])
    by (vm_compute in Hrun; injection Hrun as <-; vm_compute; reflexivity).
  exists σ. split; [reflexivity|]. split; [exact Hcalls|].
  apply (generate_calls_are_ready sampleEnv eventsToResult σ _ (lit "pplx-0000") Hrun).
  rewrite Hcalls. apply elem_of_cons. left. reflexivity.
Defined.

Lemma report_survives_everything :
  exists σ σ',
    dispatchAll sampleEnv eventsToResult initialSession = Normal σ
    /\ reportData (state σ) = Some "Groundwater report"%string
    /\ dispatchAll sampleEnv
         [ ClickPrevious; SelectAnswer (lit "Last 5 years"); ClickDownload;
           DownloadSettles 0 (Rejected (ThrownOther None)); ClickGenerate;
           ClickDownload; DownloadSettles 0 (Fulfilled tt) ] σ
       = Normal σ'
    /\ reportData (state σ') = Some "Groundwater report"%string
    /\ is_Some (error (state σ')).
Proof.
  destruct (dispatchAll sampleEnv eventsToResult initialSession) as [σ|e] eqn:Hrun;
    [|vm_compute in Hrun; discriminate Hrun].
  assert (Hshown : reportData (state σ) = Some "Groundwater report"%string)
    by (vm_compute in Hrun; injection Hrun as <-; reflexivity).
  destruct (report_is_final sampleEnv eventsToResult σ _
              [ ClickPrevious; SelectAnswer (lit "Last 5 years"); ClickDownload;
                DownloadSettles 0 (Rejected (ThrownOther None)); ClickGenerate;
                ClickDownload; DownloadSettles 0 (Fulfilled tt) ] Hrun Hshown)
    as (σ' & Hmore & Hreport & _ & _ & _ & _ & _ & Herror & _).
  exists σ, σ'. split; [reflexivity|]. split; [exact Hshown|].
  split; [exact Hmore|]. split; [exact Hreport|].
  destruct Herror as [Herror|Herror]; [|rewrite Herror; eexists; reflexivity].
  exfalso. revert Hmore Herror. vm_compute in Hrun. injection Hrun as <-.
  vm_compute. intros Hmore. injection Hmore as <-. discriminate.
Defined.

Lemma progress_on_details :
  exists σ screen,
    dispatchAll sampleEnv eventsToDetails initialSession = Normal σ
    /\ AIReports (state σ) = Normal screen
    /\ exists width, progress screen = Some width /\ (width == 75)%Q.
Proof.
  destruct (dispatchAll sampleEnv eventsToDetails initialSession) as [σ|e] eqn:Hrun;
    [|vm_compute in Hrun; discriminate Hrun].
  destruct (AIReports (state σ)) as [screen|e] eqn:Hscreen;
    [|vm_compute in Hrun; injection Hrun as <-; vm_compute in Hscreen;
      discriminate Hscreen].
  exists σ, screen. split; [reflexivity|]. split; [exact Hscreen|].
  pose proof (progress_bar_widths sampleEnv eventsToDetails σ screen Hrun Hscreen)
    as Hwidth.
  assert (Hnone : reportData (state σ) = None)
    by (vm_compute in Hrun; injection Hrun as <-; reflexivity).
  assert (Hlast : currentStep (state σ) = 2)
    by (vm_compute in Hrun; injection Hrun as <-; reflexivity).
  rewrite Hnone in Hwidth. destruct Hwidth as (width & Hprogress & Hvalue & _).
  exists width. split; [exact Hprogress|]. rewrite Hvalue, Hlast. reflexivity.
Defined.

(** While the sample request is in flight no error is shown. *)
Lemma no_error_in_flight :
  exists σ,
    dispatchAll sampleEnv eventsInFlight initialSession = Normal σ
    /\ isGenerating (state σ) = true
    /\ error (state σ) = None.
Proof.
  destruct (dispatchAll sampleEnv eventsInFlight initialSession) as [σ|e] eqn:Hrun;
    [|vm_compute in Hrun; discriminate Hrun].
  assert (Hbusy : isGenerating (state σ) = true)
    by (vm_compute in Hrun; injection Hrun as <-; reflexivity).
  exists σ. split; [reflexivity|]. split; [exact Hbusy|].
  destruct (errors_on_screen sampleEnv eventsInFlight σ Hrun) as [Hquiet _].
  apply Hquiet. exact Hbusy.
Defined.

